(** * Scorecard chat: the conversation state machine of [app.py]

    A shallow embedding of the session logic of the Streamlit front end:
    the history fetch ([load_chat_history]), the WebSocket round trip
    ([send_websocket_message]), the two pages ([modal_page], [chat_page])
    and the dispatcher ([main]).

    Conventions of the embedding.
    - Values that come out of [json.loads] / [response.json()] are Python
      objects; they are modelled by [pyval].  A dict is a [gmap string pyval]
      (insertion order is only visible to the renderer).
    - [st.session_state] is the record [session_state]; the attribute
      [pending_message], which the script creates and deletes, is an option.
    - A script run is a computation in the monad [M]: it threads the session
      state and a log of the transport calls it made, and it ends normally,
      by [st.rerun()], or by an exception that nothing catches.  Mutations
      made before an exception stay in the session state, as in Streamlit.
    - Calls that only draw widgets are left out.  What the widgets hand back
      to the script (clicked buttons, text of the inputs) is an input of the
      run; what the network does is an input too ([http_outcome],
      [ws_script]).
    - Text is ASCII: [lower] and [strip] act on the ASCII letters and on the
      ASCII white space of Python's [str.strip]. *)

From Stdlib Require Import ZArith Ascii String List Bool Lia.
From stdpp Require Import base option list strings gmap fin_maps.

Set Warnings "-register-all".
Local Open Scope string_scope.
Local Open Scope list_scope.

(** ** Python values *)

Module Py.

(** A float as [json.loads] can produce it; only its truth value is used. *)
Inductive pyfloat :=
  | FNaN
  | FInf (negative : bool)
  | FFinite (mantissa exponent : Z).

Inductive pyval :=
  | PNone
  | PBool (b : bool)
  | PInt (z : Z)
  | PFloat (f : pyfloat)
  | PStr (s : string)
  | PList (l : list pyval)
  | PDict (d : gmap string pyval).

(** [bool(v)]: the test behind [if v:]. *)
Definition truthy (v : pyval) : bool :=
  match v with
  | PNone => false
  | PBool b => b
  | PInt z => negb (Z.eqb z 0)
  | PFloat (FFinite m _) => negb (Z.eqb m 0)
  | PFloat _ => true
  | PStr s => negb (String.eqb s "")
  | PList l => match l with [] => false | _ :: _ => true end
  | PDict d => negb (bool_decide (d = ∅))
  end.

(** [v == 'literal'] for a string literal on the right. *)
Definition eq_str (v : pyval) (lit : string) : bool :=
  match v with
  | PStr s => String.eqb s lit
  | _ => false
  end.

(** [d.get(k)] and [d.get(k, default)] on a dict. *)
Definition dict_get (d : gmap string pyval) (k : string) : pyval :=
  default PNone (d !! k).

Definition dict_get_default (d : gmap string pyval) (k : string) (dflt : pyval) : pyval :=
  default dflt (d !! k).

(** ** [str.lower] and [str.strip] *)

Definition lower_ascii (c : ascii) : ascii :=
  let n := nat_of_ascii c in
  if (65 <=? n)%nat && (n <=? 90)%nat then ascii_of_nat (n + 32) else c.

Fixpoint lower (s : string) : string :=
  match s with
  | EmptyString => EmptyString
  | String c s' => String (lower_ascii c) (lower s')
  end.

(** White space of [str.strip()] in the ASCII range:
    TAB, LF, VT, FF, CR, FS, GS, RS, US and the blank. *)
Definition is_space (c : ascii) : bool :=
  let n := nat_of_ascii c in
  ((9 <=? n)%nat && (n <=? 13)%nat) || ((28 <=? n)%nat && (n <=? 32)%nat).

Fixpoint lstrip (s : string) : string :=
  match s with
  | EmptyString => EmptyString
  | String c s' => if is_space c then lstrip s' else s
  end.

Fixpoint rstrip (s : string) : string :=
  match s with
  | EmptyString => EmptyString
  | String c s' =>
      match rstrip s' with
      | EmptyString => if is_space c then EmptyString else String c EmptyString
      | t => String c t
      end
  end.

Definition strip (s : string) : string := rstrip (lstrip s).

End Py.
Export Py.

(** ** The session state

    [st.session_state] after the initialisation block at the top of the
    script.  [thread_id] holds [''], [None], the text typed on the first page
    or whatever the backend sent; [messages] and [scorecard_state] hold a
    list and a dict the script made, or whatever the history endpoint
    returned.  The attribute [ws] is set to [None] once and never used. *)

Inductive page := Modal | Chat.   (* 'modal' | 'chat' *)

Record session_state := SessionState {
  current_page : page;
  job_title : string;
  thread_id : pyval;
  auth_token : string;
  messages : pyval;
  scorecard_state : pyval;
  is_loading : bool;
  pending_message : option string;   (* None: the attribute does not exist *)
}.

Definition initial_state : session_state :=
  {| current_page := Modal; job_title := ""; thread_id := PStr "";
     auth_token := ""; messages := PList []; scorecard_state := PDict ∅;
     is_loading := false; pending_message := None |}.

Definition set_current_page (p : page) (s : session_state) : session_state :=
  {| current_page := p; job_title := job_title s; thread_id := thread_id s;
     auth_token := auth_token s; messages := messages s;
     scorecard_state := scorecard_state s; is_loading := is_loading s;
     pending_message := pending_message s |}.

Definition set_job_title (t : string) (s : session_state) : session_state :=
  {| current_page := current_page s; job_title := t; thread_id := thread_id s;
     auth_token := auth_token s; messages := messages s;
     scorecard_state := scorecard_state s; is_loading := is_loading s;
     pending_message := pending_message s |}.

Definition set_thread_id (t : pyval) (s : session_state) : session_state :=
  {| current_page := current_page s; job_title := job_title s; thread_id := t;
     auth_token := auth_token s; messages := messages s;
     scorecard_state := scorecard_state s; is_loading := is_loading s;
     pending_message := pending_message s |}.

Definition set_auth_token (t : string) (s : session_state) : session_state :=
  {| current_page := current_page s; job_title := job_title s; thread_id := thread_id s;
     auth_token := t; messages := messages s;
     scorecard_state := scorecard_state s; is_loading := is_loading s;
     pending_message := pending_message s |}.

Definition set_messages (m : pyval) (s : session_state) : session_state :=
  {| current_page := current_page s; job_title := job_title s; thread_id := thread_id s;
     auth_token := auth_token s; messages := m;
     scorecard_state := scorecard_state s; is_loading := is_loading s;
     pending_message := pending_message s |}.

Definition set_scorecard_state (d : pyval) (s : session_state) : session_state :=
  {| current_page := current_page s; job_title := job_title s; thread_id := thread_id s;
     auth_token := auth_token s; messages := messages s;
     scorecard_state := d; is_loading := is_loading s;
     pending_message := pending_message s |}.

Definition set_is_loading (b : bool) (s : session_state) : session_state :=
  {| current_page := current_page s; job_title := job_title s; thread_id := thread_id s;
     auth_token := auth_token s; messages := messages s;
     scorecard_state := scorecard_state s; is_loading := b;
     pending_message := pending_message s |}.

Definition set_pending_message (p : option string) (s : session_state) : session_state :=
  {| current_page := current_page s; job_title := job_title s; thread_id := thread_id s;
     auth_token := auth_token s; messages := messages s;
     scorecard_state := scorecard_state s; is_loading := is_loading s;
     pending_message := p |}.

(** ** The network, as the script sees it *)

(** [requests.get(...)]: it raises, or it gives a response with a status
    code whose [.json()] yields a value or raises. *)
Inductive http_outcome :=
  | HttpRaises
  | HttpResponse (status_code : Z) (json : option pyval).

(** The dict that [send_websocket_message] serialises and sends. *)
Record envelope := Envelope {
  env_type : string;
  env_job_title : string;
  env_content : string;
  env_thread_id : option pyval;   (* the key is set only for a truthy id *)
}.

(** One [ws.recv()]. *)
Inductive recv_event :=
  | RecvEmpty                          (* it returned an empty text *)
  | RecvFrame (parsed : option pyval)  (* a text; None: json.loads raises on it *)
  | RecvTimeout                        (* WebSocketTimeoutException *)
  | RecvError.                         (* any other exception *)

(** What one connection does.  After the last of [incoming] nothing more
    arrives, so the next read runs into the 30 s timeout. *)
Record ws_script := WsScript {
  connects : bool;     (* create_connection returns *)
  sends : bool;        (* ws.send returns *)
  incoming : list recv_event;
  closes : bool;       (* ws.close returns *)
}.

(** ** Script runs *)

Inductive exn := AttributeError | TypeError.

Inductive outcome (A : Type) :=
  | Done (a : A)         (* the call returned *)
  | Rerun                (* st.rerun() stopped the run *)
  | Raised (e : exn).    (* an exception left the script *)
Arguments Done {A} a.
Arguments Rerun {A}.
Arguments Raised {A} e.

(** A transport call, as logged: the session at the moment of the call, what
    was sent and what the call returned. *)
Record exchange := Exchange {
  session_at_call : session_state;
  sent_header : option string;
  sent_frame : envelope;
  returned : pyval;
}.

Record world := World {
  session : session_state;
  calls : list exchange;    (* oldest first *)
}.

Definition M (A : Type) : Type := world → outcome A * world.

#[global] Instance M_ret : MRet M := λ A a w, (Done a, w).
#[global] Instance M_bind : MBind M := λ A B f m w,
  match m w with
  | (Done a, w') => f a w'
  | (Rerun, w') => (Rerun, w')
  | (Raised e, w') => (Raised e, w')
  end.

Definition get_state : M session_state := λ w, (Done (session w), w).
Definition modify (f : session_state → session_state) : M unit :=
  λ w, (Done tt, {| session := f (session w); calls := calls w |}).
Definition log_call (x : exchange) : M unit :=
  λ w, (Done tt, {| session := session w; calls := calls w ++ [x] |}).
Definition raise {A} (e : exn) : M A := λ w, (Raised e, w).
Definition rerun : M unit := λ w, (Rerun, w).
Definition when (b : bool) (m : M unit) : M unit := if b then m else mret tt.

Definition nonempty (s : string) : bool := negb (String.eqb s "").

(** ** Transport adapter *)

Section Transport.

(** The history endpoint, by thread id and [Authorization] header. *)
Variable http : string → option string → http_outcome.
(** The chat endpoint, by connection header and frame sent. *)
Variable net : option string → envelope → ws_script.

(** [load_chat_history]: everything inside the [try]; [except Exception]
    turns a raising [requests.get], [response.json()] or [data.get] into
    [False]. *)
Definition load_chat_history (thread_id : string) : M bool :=
  s ← get_state;
  let headers :=
    if nonempty (auth_token s) then Some ("Bearer " +:+ auth_token s) else None in
  match http thread_id headers with
  | HttpRaises => mret false
  | HttpResponse status_code json =>
      if (status_code =? 200)%Z then
        match json with
        | Some (PDict data) =>
            modify (set_messages (dict_get_default data "messages" (PList [])));;
            modify (set_scorecard_state (dict_get_default data "state" (PDict ∅)));;
            mret true
        | Some _ => mret false       (* data.get raises AttributeError *)
        | None => mret false         (* response.json() raises *)
        end
      else mret false
  end.

(** The [while True] loop around [ws.recv()], with [responses] as
    accumulator; the result is [responses] at the [break]. *)
Fixpoint recv_loop (events : list recv_event) (responses : list pyval) : list pyval :=
  match events with
  | [] => responses                                   (* timeout *)
  | RecvEmpty :: rest => recv_loop rest responses     (* [if response:] fails *)
  | RecvFrame None :: _ => responses                  (* json.loads raised *)
  | RecvFrame (Some parsed_response) :: rest =>
      let responses := responses ++ [parsed_response] in
      match parsed_response with
      | PDict d =>
          if eq_str (dict_get d "type") "ai_message" then responses
          else
            match dict_get_default d "data" (PDict ∅) with
            | PDict data =>
                if truthy (dict_get data "content") then responses
                else recv_loop rest responses
            | _ => responses                          (* no [.get] on it *)
            end
      | _ => responses                                (* no [.get] on it *)
      end
  | RecvTimeout :: _ => responses
  | RecvError :: _ => responses
  end.

(** [responses[-1]] if [responses] else [None]. *)
Definition last_response (responses : list pyval) : pyval :=
  default PNone (last responses).

(** One connection: connect, send, read, close.  A failing connect or send
    ends in the outer [except] and gives [None]; a failing close is
    swallowed. *)
Definition ws_round_trip (script : ws_script) : pyval :=
  if connects script then
    if sends script then
      let result := last_response (recv_loop (incoming script) []) in
      if closes script then result else result
    else PNone
  else PNone.

Definition send_websocket_message
    (message_type job_title content : string) (thread_id : pyval) : M pyval :=
  let message :=
    {| env_type := message_type; env_job_title := job_title;
       env_content := content;
       env_thread_id := if truthy thread_id then Some thread_id else None |} in
  s ← get_state;
  let headers :=
    if nonempty (auth_token s)
    then Some ("Authorization: Bearer " +:+ auth_token s) else None in
  let result := ws_round_trip (net headers message) in
  log_call {| session_at_call := s; sent_header := headers;
              sent_frame := message; returned := result |};;
  mret result.

End Transport.

(** ** Pages *)

Record modal_inputs := ModalInputs {
  in_auth_token : string;
  in_job_title : string;
  in_thread_id : string;
  continue_clicked : bool;
}.

Record chat_inputs := ChatInputs {
  back_clicked : bool;
  user_input : string;
  send_clicked : bool;
  save_draft_clicked : bool;   (* shows a notice, changes nothing *)
  complete_clicked : bool;     (* shows a notice, changes nothing *)
}.

Definition user_message_dict (content : string) : pyval :=
  PDict {[ "role" := PStr "user"; "content" := PStr content ]}.

Definition assistant_message_dict (content : pyval) : pyval :=
  PDict {[ "role" := PStr "assistant"; "content" := content ]}.

(** [st.session_state.messages.append(m)] *)
Definition append_message (m : pyval) : M unit :=
  s ← get_state;
  match messages s with
  | PList l => modify (set_messages (PList (l ++ [m])))
  | _ => raise AttributeError
  end.

(** [st.session_state.scorecard_state[name] = v] *)
Definition set_scorecard_item (name : string) (v : pyval) : M unit :=
  s ← get_state;
  match scorecard_state s with
  | PDict d => modify (set_scorecard_state (PDict (<[name := v]> d)))
  | _ => raise TypeError
  end.

(** [if response['data'].get('thread_id'): ...thread_id = response['data']['thread_id']] *)
Definition update_thread_id (data : gmap string pyval) : M unit :=
  when (truthy (dict_get data "thread_id"))
       (modify (set_thread_id (dict_get data "thread_id"))).

(** [if response['data'].get(name): ...scorecard_state[name] = response['data'][name]] *)
Definition update_section (data : gmap string pyval) (name : string) : M unit :=
  when (truthy (dict_get data name))
       (set_scorecard_item name (dict_get data name)).

Definition update_sections (data : gmap string pyval) : M unit :=
  update_section data "outcomes";;
  update_section data "culture";;
  update_section data "boss_style";;
  update_section data "situation";;
  update_section data "requirements";;
  update_section data "competencies";;
  update_section data "mission".

Definition is_connection_established (content : string) : bool :=
  String.eqb (strip (lower content)) "connection established".

(** The body of [if response:] in [chat_page]. *)
Definition process_response (response : pyval) : M unit :=
  match response with
  | PDict r =>
      if eq_str (dict_get r "type") "ai_message" && bool_decide (is_Some (r !! "data")) then
        match dict_get r "data" with
        | PDict data =>
            match dict_get_default data "content" (PStr "Response received") with
            | PStr content =>
                if is_connection_established content then
                  update_thread_id data;;
                  update_sections data
                else
                  update_thread_id data;;
                  update_sections data;;
                  append_message (assistant_message_dict (PStr content))
            | _ => raise AttributeError          (* no [.lower] on it *)
            end
        | _ => raise AttributeError              (* no [.get] on it *)
        end
      else
        append_message
          (assistant_message_dict (dict_get_default r "content" (PStr "Response received")))
  | _ => raise AttributeError                    (* no [.get] on it *)
  end.

(** [if response:] and its body. *)
Definition handle_response (response : pyval) : M unit :=
  when (truthy response) (process_response response).

Section Pages.

Variable http : string → option string → http_outcome.
Variable net : option string → envelope → ws_script.

Definition modal_page (i : modal_inputs) : M unit :=
  when (continue_clicked i)
    (when (nonempty (in_job_title i))
      (modify (set_job_title (in_job_title i));;
       modify (set_thread_id
                 (if nonempty (in_thread_id i) then PStr (in_thread_id i) else PNone));;
       modify (set_auth_token
                 (if nonempty (in_auth_token i) then in_auth_token i else ""));;
       if nonempty (in_thread_id i) then
         load_chat_history http (in_thread_id i) ≫= λ loaded : bool,
           if loaded then modify (set_current_page Chat);; rerun
           else mret tt
       else
         modify (set_current_page Chat);; rerun)).

(** Lines 260-342: the run that carries the pending message out. *)
Definition process_pending (user_message : string) : M unit :=
  append_message (user_message_dict user_message);;
  s ← get_state;
  send_websocket_message net "user_message" (job_title s)
    user_message (thread_id s) ≫= λ response : pyval,
  handle_response response;;
  modify (set_is_loading false);;
  modify (set_pending_message None);;
  rerun.

Definition chat_page (i : chat_inputs) : M unit :=
  when (back_clicked i) (modify (set_current_page Modal);; rerun);;
  s ← get_state;
  when (send_clicked i && nonempty (user_input i) && negb (is_loading s))
    (modify (set_is_loading true);;
     modify (set_pending_message (Some (strip (user_input i))));;
     rerun);;
  s ← get_state;
  match is_loading s, pending_message s with
  | true, Some user_message => process_pending user_message
  | _, _ => mret tt
  end.

Record widgets := Widgets {
  on_modal : modal_inputs;
  on_chat : chat_inputs;
}.

Definition main (w : widgets) : M unit :=
  s ← get_state;
  match current_page s with
  | Modal => modal_page (on_modal w)
  | Chat => chat_page (on_chat w)
  end.

(** The widgets of a run that [st.rerun()] started: nothing is clicked,
    the form was cleared. *)
Definition quiet : widgets :=
  {| on_modal := {| in_auth_token := ""; in_job_title := ""; in_thread_id := "";
                    continue_clicked := false |};
     on_chat := {| back_clicked := false; user_input := ""; send_clicked := false;
                   save_draft_clicked := false; complete_clicked := false |} |}.

(** One user action: the run it triggers and the runs that [st.rerun()]
    chains to it, at most [fuel] of them. *)
Fixpoint interact (fuel : nat) (w : widgets) (x : world) : outcome unit * world :=
  match main w x with
  | (Rerun, x') =>
      match fuel with
      | O => (Rerun, x')
      | S fuel' => interact fuel' quiet x'
      end
  | r => r
  end.

End Pages.

(** ** The delta of a reply, in the spec's words

    What an [AiMessage] does to the store according to the specification:
    the thread id is taken over when the reply carries one, and each section
    the reply carries replaces the entry of the draft.  The theorems below
    relate [process_response] to these. *)

Definition section_order : list string :=
  ["outcomes"; "culture"; "boss_style"; "situation"; "requirements";
   "competencies"; "mission"].

Definition merge_thread_id (data : gmap string pyval) (old : pyval) : pyval :=
  if truthy (dict_get data "thread_id") then dict_get data "thread_id" else old.

Definition merge_section (data d : gmap string pyval) (name : string) : gmap string pyval :=
  if truthy (dict_get data name) then <[name := dict_get data name]> d else d.

Definition merge_sections (data d : gmap string pyval) : gmap string pyval :=
  foldl (merge_section data) d section_order.

Definition reconciled (data d : gmap string pyval) (s : session_state) : session_state :=
  set_scorecard_state (PDict (merge_sections data d))
    (set_thread_id (merge_thread_id data (thread_id s)) s).

Definition with_session (s : session_state) (w : world) : world :=
  {| session := s; calls := calls w |}.

(** ** The receive loop, in the spec's words

    The loop stops at the first read that yields an [ai_message] frame or a
    frame with a non-empty nested content, that times out, or that fails:
    by an exception of [recv], of [json.loads], or of the inspection of a
    frame that is not of the expected kind. *)

Definition observed (e : recv_event) : list pyval :=
  match e with
  | RecvFrame (Some v) => [v]
  | _ => []
  end.

Definition is_ai_message_frame (v : pyval) : bool :=
  match v with
  | PDict d => eq_str (dict_get d "type") "ai_message"
  | _ => false
  end.

Definition has_nested_content (v : pyval) : bool :=
  match v with
  | PDict d =>
      match dict_get_default d "data" (PDict ∅) with
      | PDict data => truthy (dict_get data "content")
      | _ => false
      end
  | _ => false
  end.

(** The frame is a dict, and so is its [data] if it has one. *)
Definition inspectable (v : pyval) : bool :=
  match v with
  | PDict d =>
      match dict_get_default d "data" (PDict ∅) with
      | PDict _ => true
      | _ => false
      end
  | _ => false
  end.

Definition stops_loop (e : recv_event) : bool :=
  match e with
  | RecvEmpty => false
  | RecvFrame (Some v) =>
      is_ai_message_frame v || has_nested_content v || negb (inspectable v)
  | RecvFrame None => true
  | RecvTimeout => true
  | RecvError => true
  end.

(** ** A failing history fetch

    A status other than 200, or an exception inside the [try]: of
    [requests.get], of [response.json()], or of [data.get] when the body is
    not a JSON object. *)

Inductive fetch_fails : http_outcome → Prop :=
  | fails_request : fetch_fails HttpRaises
  | fails_status status json : status ≠ 200%Z → fetch_fails (HttpResponse status json)
  | fails_decoding status : fetch_fails (HttpResponse status None)
  | fails_not_object status v :
      (∀ d, v ≠ PDict d) → fetch_fails (HttpResponse status (Some v)).

(** ** What a reply may do to the session

    The thread id a reply carries, and the ways in which handling a reply
    can change the session: it may take over the thread id of the reply, it
    may append one message, it may change the draft, and nothing else. *)

Definition reply_thread_id (response : pyval) : pyval :=
  match response with
  | PDict r =>
      match dict_get r "data" with
      | PDict data => dict_get data "thread_id"
      | _ => PNone
      end
  | _ => PNone
  end.

Record reply_effect (response : pyval) (s s' : session_state) : Prop := {
  effect_page : current_page s' = current_page s;
  effect_job_title : job_title s' = job_title s;
  effect_auth_token : auth_token s' = auth_token s;
  effect_is_loading : is_loading s' = is_loading s;
  effect_pending : pending_message s' = pending_message s;
  effect_thread_id :
    thread_id s' = thread_id s ∨
    (truthy (reply_thread_id response) = true ∧ thread_id s' = reply_thread_id response);
  effect_messages :
    messages s' = messages s ∨
    ∃ l m, messages s = PList l ∧ messages s' = PList (l ++ [m]);
}.


(** The call that [send_websocket_message] logs for a user message. *)
Definition exchange_of (net : option string → envelope → ws_script)
    (s : session_state) (content : string) : exchange :=
  let message :=
    {| env_type := "user_message"; env_job_title := job_title s;
       env_content := content;
       env_thread_id := if truthy (thread_id s) then Some (thread_id s) else None |} in
  let headers :=
    if nonempty (auth_token s)
    then Some ("Authorization: Bearer " +:+ auth_token s) else None in
  {| session_at_call := s; sent_header := headers; sent_frame := message;
     returned := ws_round_trip (net headers message) |}.

(** The same widgets without the send. *)
Definition without_send (i : chat_inputs) : chat_inputs :=
  {| back_clicked := back_clicked i; user_input := ""; send_clicked := false;
     save_draft_clicked := save_draft_clicked i;
     complete_clicked := complete_clicked i |}.

(** Runs of the chat page, each with the network of its moment. *)
Definition chat_runs
    (steps : list ((option string → envelope → ws_script) * chat_inputs))
    (x : world) : world :=
  foldl (λ x step, snd (chat_page step.1 step.2 x)) x steps.

(** ** Sample data

    The reply of scenario 8 of the specification, a greeting, and a chat
    session in which one message was sent. *)

Definition sample_data : gmap string pyval :=
  {[ "content" := PStr "Great, tell me about outcomes";
     "thread_id" := PStr "abc123";
     "situation" := PDict {[ "team_size" := PStr "5" ]} ]}.

Definition sample_reply : gmap string pyval :=
  {[ "type" := PStr "ai_message"; "data" := PDict sample_data ]}.

Definition greeting_data : gmap string pyval :=
  {[ "content" := PStr "  Connection Established ";
     "thread_id" := PStr "abc123";
     "mission" := PDict {[ "summary" := PStr "lead the team" ]} ]}.

Definition greeting_reply : gmap string pyval :=
  {[ "type" := PStr "ai_message"; "data" := PDict greeting_data ]}.

Definition sample_log : list pyval := [user_message_dict "I lead a team of 5"].

Definition sample_session : session_state :=
  {| current_page := Chat; job_title := "Senior Engineer"; thread_id := PNone;
     auth_token := ""; messages := PList sample_log;
     scorecard_state := PDict {[ "situation" := PDict {[ "team_size" := PStr "3" ]} ]};
     is_loading := false; pending_message := None |}.

Definition sample_world : world := {| session := sample_session; calls := [] |}.

(** A connection on which the given events arrive. *)
Definition answering (events : list recv_event) : option string → envelope → ws_script :=
  λ _ _, {| connects := true; sends := true; incoming := events; closes := true |}.

(** Widgets of single user actions. *)
Definition submit (job_title thread_id auth_token : string) : widgets :=
  {| on_modal := {| in_auth_token := auth_token; in_job_title := job_title;
                    in_thread_id := thread_id; continue_clicked := true |};
     on_chat := on_chat quiet |}.

Definition send (text : string) : widgets :=
  {| on_modal := on_modal quiet;
     on_chat := {| back_clicked := false; user_input := text; send_clicked := true;
                   save_draft_clicked := false; complete_clicked := false |} |}.

Definition back : widgets :=
  {| on_modal := on_modal quiet;
     on_chat := {| back_clicked := true; user_input := ""; send_clicked := false;
                   save_draft_clicked := false; complete_clicked := false |} |}.

Definition no_history : string → option string → http_outcome :=
  λ _ _, HttpResponse 404 None.

Definition fresh_world : world := {| session := initial_state; calls := [] |}.

(** A first session: create, send one message and get [sample_reply], go
    back to the first page. *)
Definition after_first_session : world :=
  let net := answering [RecvFrame (Some (PDict sample_reply))] in
  let x1 := snd (interact no_history net 2 (submit "Senior Engineer" "" "") fresh_world) in
  let x2 := snd (interact no_history net 2 (send "I lead a team of 5") x1) in
  snd (interact no_history net 2 back x2).

(** The chat right after a first create, and a session that is waiting for
    the reply to a message. *)
Definition chat_world : world :=
  snd (interact no_history (answering []) 2 (submit "Senior Engineer" "" "") fresh_world).

Definition loading_world : world :=
  {| session := set_pending_message (Some "I lead a team of 5")
                  (set_is_loading true (set_thread_id (PStr "thread-1") sample_session));
     calls := [] |}.

(** ** Predicates for the proofs *)

(** A computation that touches nothing but the draft and does not rerun. *)
Definition scorecard_only (m : M unit) : Prop :=
  ∀ w, ∃ o sc, m w = (o, with_session (set_scorecard_state sc (session w)) w) ∧ o ≠ Rerun.

(** What one run of the chat page may do: at most one transport call, for
    the pending message, and a thread id that stays or is the one of the
    reply. *)
Definition step_spec (pending : option string) (x x' : world) : Prop :=
  ∃ new,
    calls x' = calls x ++ new ∧
    (List.length new ≤ 1)%nat ∧
    (∀ c, c ∈ new → pending = Some (env_content (sent_frame c))) ∧
    (thread_id (session x') = thread_id (session x) ∨
     ∃ c, c ∈ new ∧ truthy (reply_thread_id (returned c)) = true ∧
          thread_id (session x') = reply_thread_id (returned c)).

(** ** Further notions used in the statements *)


(** A read that returned an empty text. *)
Definition is_empty_read (e : recv_event) : bool :=
  match e with
  | RecvEmpty => true
  | _ => false
  end.

(** A frame after which the loop reads on. *)
Definition quiet_frame (v : pyval) : Prop :=
  is_ai_message_frame v = false ∧ has_nested_content v = false ∧ inspectable v = true.

(** The log is a list and the draft is a dict. *)
Definition well_typed (s : session_state) : Prop :=
  (∃ l, messages s = PList l) ∧ (∃ d, scorecard_state s = PDict d).

(** A history endpoint whose bodies, when they are JSON objects, hold a list
    under [messages] and a dict under [state], or lack the keys. *)
Definition typed_history (http : string → option string → http_outcome) : Prop :=
  ∀ thread_id headers status body,
    http thread_id headers = HttpResponse status (Some (PDict body)) →
    (∃ l, dict_get_default body "messages" (PList []) = PList l) ∧
    (∃ d, dict_get_default body "state" (PDict ∅) = PDict d).

(** User actions, each with the network of its moment. *)
Record action := Action {
  act_http : string → option string → http_outcome;
  act_net : option string → envelope → ws_script;
  act_widgets : widgets;
}.

Definition perform (x : world) (a : action) : world :=
  snd (interact (act_http a) (act_net a) 2 (act_widgets a) x).

Definition perform_all (actions : list action) (x : world) : world :=
  foldl perform x actions.

(** * Theorems *)

(** ** The monad *)

Lemma bind_done {A B} (m : M A) (f : A → M B) w a w' :
  m w = (Done a, w') → (m ≫= f) w = f a w'.
Proof. intros H. unfold mbind, M_bind. by rewrite H. Qed.

Lemma bind_rerun {A B} (m : M A) (f : A → M B) w w' :
  m w = (Rerun, w') → (m ≫= f) w = (Rerun, w').
Proof. intros H. unfold mbind, M_bind. by rewrite H. Qed.

Lemma bind_raised {A B} (m : M A) (f : A → M B) w e w' :
  m w = (Raised e, w') → (m ≫= f) w = (Raised e, w').
Proof. intros H. unfold mbind, M_bind. by rewrite H. Qed.

Lemma with_session_id w : with_session (session w) w = w.
Proof. by destruct w. Qed.

Lemma set_thread_id_same s : set_thread_id (thread_id s) s = s.
Proof. by destruct s. Qed.

Lemma set_scorecard_state_same s : set_scorecard_state (scorecard_state s) s = s.
Proof. by destruct s. Qed.

Ltac run :=
  unfold when, modify, get_state, log_call, raise, rerun, with_session;
  unfold mbind, M_bind, mret, M_ret; cbn [session calls fst snd].

(** ** Section merge *)

Lemma merge_section_lookup data d name k :
  merge_section data d name !! k =
    if decide (name = k)
    then (if truthy (dict_get data name) then Some (dict_get data name) else d !! k)
    else d !! k.
Proof.
  unfold merge_section. destruct (truthy (dict_get data name)).
  - rewrite lookup_insert. by destruct (decide (name = k)).
  - by destruct (decide (name = k)).
Qed.

Lemma foldl_merge_lookup data (names : list string) d k :
  foldl (merge_section data) d names !! k =
    if decide (k ∈ names)
    then (if truthy (dict_get data k) then Some (dict_get data k) else d !! k)
    else d !! k.
Proof.
  revert d. induction names as [|n names IH]; intros d.
  - cbn [foldl]. destruct (decide (k ∈ [])) as [Hin|]; [|done].
    by apply elem_of_nil in Hin.
  - cbn [foldl]. rewrite IH, merge_section_lookup.
    destruct (decide (n = k)) as [->|Hne].
    + destruct (decide (k ∈ k :: names)) as [_|Hn]; [|exfalso; apply Hn; left].
      destruct (decide (k ∈ names)); by destruct (truthy (dict_get data k)).
    + destruct (decide (k ∈ names)) as [Hin|Hnin].
      * destruct (decide (k ∈ n :: names)) as [_|Hn]; [done|].
        exfalso. apply Hn. by right.
      * destruct (decide (k ∈ n :: names)) as [Hin|_]; [|done].
        apply elem_of_cons in Hin as [->|Hin]; [congruence|contradiction].
Qed.

Lemma merge_sections_lookup data d k :
  merge_sections data d !! k =
    if decide (k ∈ section_order)
    then (if truthy (dict_get data k) then Some (dict_get data k) else d !! k)
    else d !! k.
Proof. apply foldl_merge_lookup. Qed.

Lemma dict_get_Some (d : gmap string pyval) k v : d !! k = Some v → dict_get d k = v.
Proof. intros H. unfold dict_get. by rewrite H. Qed.

Lemma dict_get_None (d : gmap string pyval) k : d !! k = None → dict_get d k = PNone.
Proof. intros H. unfold dict_get. by rewrite H. Qed.

Lemma truthy_dict_get data k :
  truthy (dict_get data k) = true → data !! k = Some (dict_get data k).
Proof.
  unfold dict_get. destruct (data !! k); [done|]. cbn. discriminate.
Qed.

(** ** The steps of [process_response] *)

Lemma update_thread_id_run data w :
  update_thread_id data w =
    (Done tt, with_session (set_thread_id (merge_thread_id data (thread_id (session w))) (session w)) w).
Proof.
  unfold update_thread_id, merge_thread_id.
  destruct (truthy (dict_get data "thread_id")); run; [done|].
  by rewrite set_thread_id_same; destruct w.
Qed.

Lemma update_section_run data name d w :
  scorecard_state (session w) = PDict d →
  update_section data name w =
    (Done tt, with_session (set_scorecard_state (PDict (merge_section data d name)) (session w)) w).
Proof.
  intros Hd. unfold update_section, merge_section, set_scorecard_item.
  destruct (truthy (dict_get data name)); run.
  - by rewrite Hd.
  - rewrite <- Hd, set_scorecard_state_same. by destruct w.
Qed.

Lemma update_sections_run data d w :
  scorecard_state (session w) = PDict d →
  update_sections data w =
    (Done tt, with_session (set_scorecard_state (PDict (merge_sections data d)) (session w)) w).
Proof.
  intros Hd. unfold update_sections, merge_sections, section_order.
  repeat (erewrite bind_done; [|apply update_section_run; first [exact Hd|reflexivity]]).
  erewrite update_section_run by reflexivity.
  cbn [foldl]. by destruct w as [[] ?].
Qed.

Lemma update_state_run data d w :
  scorecard_state (session w) = PDict d →
  (update_thread_id data;; update_sections data) w =
    (Done tt, with_session (reconciled data d (session w)) w).
Proof.
  intros Hd. erewrite bind_done by apply update_thread_id_run.
  erewrite update_sections_run by (cbn; exact Hd).
  by destruct w as [[] ?].
Qed.

Lemma append_message_run m l w :
  messages (session w) = PList l →
  append_message m w =
    (Done tt, with_session (set_messages (PList (l ++ [m])) (session w)) w).
Proof. intros Hl. unfold append_message. run. by rewrite Hl. Qed.

Lemma append_message_keeps m w :
  append_message m w = (Raised AttributeError, w) ∨
  ∃ l, messages (session w) = PList l ∧
       append_message m w =
         (Done tt, with_session (set_messages (PList (l ++ [m])) (session w)) w).
Proof.
  unfold append_message. run.
  destruct (messages (session w)) eqn:Hm; try (by left).
  right. by eexists.
Qed.

(** An [ai_message] whose [data] is a dict and whose content is a string
    (or is missing, which gives the placeholder): the store is reconciled,
    and a message is appended unless the content is the greeting. *)
Lemma process_ai_message_run r data content d w :
  eq_str (dict_get r "type") "ai_message" = true →
  r !! "data" = Some (PDict data) →
  dict_get_default data "content" (PStr "Response received") = PStr content →
  scorecard_state (session w) = PDict d →
  process_response (PDict r) w =
    if is_connection_established content
    then (Done tt, with_session (reconciled data d (session w)) w)
    else append_message (assistant_message_dict (PStr content))
           (with_session (reconciled data d (session w)) w).
Proof.
  intros Hty Hdata Hc Hd. unfold process_response.
  rewrite Hty. rewrite bool_decide_eq_true_2 by (by rewrite Hdata).
  cbn [andb]. rewrite (dict_get_Some _ _ _ Hdata), Hc.
  destruct (is_connection_established content).
  - by apply update_state_run.
  - rewrite <- (bind_done (update_thread_id data;; update_sections data)
                 (λ _, append_message (assistant_message_dict (PStr content)))
                 w tt _ (update_state_run data d w Hd)).
    unfold mbind, M_bind.
    destruct (update_thread_id data w) as [[| |] ?]; reflexivity.
Qed.

(** ** [str.lower] and [str.strip] commute *)






(** ** Replies of the [ai_message] shape *)

Lemma truthy_dict_lookup (r : gmap string pyval) k v :
  r !! k = Some v → truthy (PDict r) = true.
Proof.
  intros H. cbn. apply negb_true_iff, bool_decide_eq_false.
  intros ->. by rewrite lookup_empty in H.
Qed.

Lemma eq_str_true v lit : v = PStr lit → eq_str v lit = true.
Proof. intros ->. cbn. apply String.eqb_refl. Qed.

Lemma dict_get_default_Some (d : gmap string pyval) k v dflt :
  d !! k = Some v → dict_get_default d k dflt = v.
Proof. intros H. unfold dict_get_default. by rewrite H. Qed.

Lemma dict_get_default_None (d : gmap string pyval) k dflt :
  d !! k = None → dict_get_default d k dflt = dflt.
Proof. intros H. unfold dict_get_default. by rewrite H. Qed.


(** C4. For each of the seven sections and every [ai_message] reply whose
    [data] is a dict with a string (or no) content: a truthy value of the
    reply for the section becomes the entry of the draft, otherwise the
    entry of the draft stays as it was (present or absent). *)
Theorem C4_section_replaced_or_kept
    (name : string) (r data d : gmap string pyval) (w : world) :
  name ∈ ["situation"; "mission"; "outcomes"; "competencies"; "culture";
          "boss_style"; "requirements"] →
  dict_get r "type" = PStr "ai_message" →
  r !! "data" = Some (PDict data) →
  (data !! "content" = None ∨ ∃ content, data !! "content" = Some (PStr content)) →
  scorecard_state (session w) = PDict d →
  ∃ d', scorecard_state (session (snd (handle_response (PDict r) w))) = PDict d' ∧
        (truthy (dict_get data name) = true → d' !! name = data !! name) ∧
        (truthy (dict_get data name) = false → d' !! name = d !! name).
Proof.
  intros Hname Hty Hdata Hc Hd.
  exists (merge_sections data d).
  assert (Hin : name ∈ section_order).
  { unfold section_order. rewrite !elem_of_cons, elem_of_nil in Hname.
    rewrite !elem_of_cons. tauto. }
  assert (∃ content, dict_get_default data "content" (PStr "Response received")
                     = PStr content) as [content Hcontent].
  { destruct Hc as [Hc|[c Hc]].
    - eexists. by apply dict_get_default_None.
    - exists c. by apply dict_get_default_Some. }
  split.
  - unfold handle_response. rewrite (truthy_dict_lookup _ _ _ Hdata). cbn [when].
    rewrite (process_ai_message_run r data content d w);
      [| by apply eq_str_true | done | done | done].
    destruct (is_connection_established content); [by destruct w as [[] ?]|].
    destruct (append_message_keeps (assistant_message_dict (PStr content))
                (with_session (reconciled data d (session w)) w))
      as [H|(l' & _ & H)];
      rewrite H; by destruct w as [[] ?].
  - rewrite merge_sections_lookup. rewrite decide_True by done.
    split; intros Ht; rewrite Ht; [|done].
    symmetry. by apply truthy_dict_get.
Qed.


Lemma C4_witness :
  ∃ d', scorecard_state (session (snd (handle_response (PDict sample_reply) sample_world)))
          = PDict d' ∧
        (truthy (dict_get sample_data "situation") = true →
         d' !! "situation" = sample_data !! "situation") ∧
        (truthy (dict_get sample_data "situation") = false →
         d' !! "situation" =
           ({[ "situation" := PDict {[ "team_size" := PStr "3" ]} ]} : gmap string pyval)
             !! "situation").
Proof.
  apply (C4_section_replaced_or_kept "situation" sample_reply sample_data
           {[ "situation" := PDict {[ "team_size" := PStr "3" ]} ]} sample_world).
  - apply list_elem_of_here.
  - reflexivity.
  - reflexivity.
  - right. exists "Great, tell me about outcomes". reflexivity.
  - reflexivity.
Defined.

(** Scenario 8 of the specification, run on the code. *)
Example scenario_8 :
  let w' := snd (handle_response (PDict sample_reply) sample_world) in
  thread_id (session w') = PStr "abc123" ∧
  scorecard_state (session w') = PDict {[ "situation" := PDict {[ "team_size" := PStr "5" ]} ]} ∧
  messages (session w') =
    PList [user_message_dict "I lead a team of 5";
           assistant_message_dict (PStr "Great, tell me about outcomes")].
Proof. vm_compute. repeat split. Qed.

(** ** Replies of any other shape *)

(** C10, as amended.  A reply that is a non-empty dict and either lacks the
    [ai_message]-with-[data] envelope or has it with a [data] dict without
    [content] gets an assistant message: with the reply's top-level
    [content] if it lacks the envelope and has one, with the placeholder
    otherwise. *)
Theorem C10_nonempty_reply_gets_a_message
    (r : gmap string pyval) (l : list pyval) (w : world) :
  r ≠ ∅ →
  messages (session w) = PList l →
  (eq_str (dict_get r "type") "ai_message" && bool_decide (is_Some (r !! "data")) = false
   ∨ (dict_get r "type" = PStr "ai_message" ∧
      ∃ data d, r !! "data" = Some (PDict data) ∧ data !! "content" = None ∧
                scorecard_state (session w) = PDict d)) →
  let content :=
    if eq_str (dict_get r "type") "ai_message" && bool_decide (is_Some (r !! "data"))
    then PStr "Response received"
    else dict_get_default r "content" (PStr "Response received") in
  ∃ w', handle_response (PDict r) w = (Done tt, w') ∧
        messages (session w') =
          PList (l ++ [PDict {[ "role" := PStr "assistant"; "content" := content ]}]).
Proof.
  intros Hne Hl Hshape content.
  assert (Htruthy : truthy (PDict r) = true).
  { cbn. by apply negb_true_iff, bool_decide_eq_false. }
  unfold handle_response. rewrite Htruthy. cbn [when].
  destruct Hshape as [Hlegacy|(Hty & data & d & Hdata & Hc & Hd)].
  - subst content. unfold process_response. rewrite Hlegacy.
    eexists. split; [by apply append_message_run|]. done.
  - assert (Henv : eq_str (dict_get r "type") "ai_message"
                   && bool_decide (is_Some (r !! "data")) = true).
    { rewrite (eq_str_true _ _ Hty). by rewrite bool_decide_eq_true_2 by (by rewrite Hdata). }
    subst content. rewrite Henv.
    rewrite (process_ai_message_run r data "Response received" d w);
      [| by apply eq_str_true | done | by apply dict_get_default_None | done].
    replace (is_connection_established "Response received") with false by reflexivity.
    eexists. split.
    + apply (append_message_run _ l). by destruct w as [[] ?].
    + done.
Qed.

Lemma C10_witness :
  let r : gmap string pyval := {[ "type" := PStr "ai_message" ]} in
  let content :=
    if eq_str (dict_get r "type") "ai_message" && bool_decide (is_Some (r !! "data"))
    then PStr "Response received"
    else dict_get_default r "content" (PStr "Response received") in
  ∃ w', handle_response (PDict r) sample_world = (Done tt, w') ∧
        messages (session w') =
          PList (sample_log ++ [PDict {[ "role" := PStr "assistant"; "content" := content ]}]).
Proof.
  apply (C10_nonempty_reply_gets_a_message {[ "type" := PStr "ai_message" ]}
           sample_log sample_world).
  - intros H. apply (f_equal (λ m : gmap string pyval, m !! "type")) in H.
    vm_compute in H. discriminate H.
  - reflexivity.
  - left. reflexivity.
Defined.

(** C10, as stated, fails on the empty JSON object: the transport returns it
    (it is not [None] and it has no envelope), but [if response:] takes it
    for a missing reply and no assistant message is appended. *)
Lemma C10_empty_object_gets_no_message :
  let run := process_pending (answering [RecvFrame (Some (PDict ∅))])
               "hello" sample_world in
  fst run = Rerun ∧
  map returned (calls (snd run)) = [PDict ∅] ∧
  PDict ∅ ≠ PNone ∧
  eq_str (dict_get ∅ "type") "ai_message" && bool_decide (is_Some ((∅ : gmap string pyval) !! "data")) = false ∧
  messages (session (snd run)) = PList (sample_log ++ [user_message_dict "hello"]).
Proof. vm_compute. repeat split; discriminate. Qed.

(** ** The receive loop *)

Lemma recv_loop_stop e post acc :
  stops_loop e = true → recv_loop (e :: post) acc = acc ++ observed e.
Proof.
  destruct e as [|[v|]| |]; cbn [stops_loop observed recv_loop];
    rewrite ?app_nil_r; try done.
  destruct v as [| | | | | |d]; cbn; try done.
  destruct (eq_str (dict_get d "type") "ai_message"); [done|].
  destruct (dict_get_default d "data" (PDict ∅)) as [| | | | | |data]; cbn; try done.
  by destruct (truthy (dict_get data "content")).
Qed.

Lemma recv_loop_continue e rest acc :
  stops_loop e = false → recv_loop (e :: rest) acc = recv_loop rest (acc ++ observed e).
Proof.
  destruct e as [|[v|]| |]; cbn [stops_loop observed recv_loop];
    rewrite ?app_nil_r; try done.
  destruct v as [| | | | | |d]; cbn; try done.
  destruct (eq_str (dict_get d "type") "ai_message"); [done|].
  destruct (dict_get_default d "data" (PDict ∅)) as [| | | | | |data]; cbn; try done.
  by destruct (truthy (dict_get data "content")).
Qed.

Lemma recv_loop_split pre e post acc :
  Forall (λ x, stops_loop x = false) pre →
  stops_loop e = true →
  recv_loop (pre ++ e :: post) acc = acc ++ flat_map observed (pre ++ [e]).
Proof.
  intros Hpre He. revert acc.
  induction Hpre as [|x pre Hx _ IH]; intros acc.
  - cbn [app flat_map]. rewrite app_nil_r. by apply recv_loop_stop.
  - cbn [app flat_map]. rewrite recv_loop_continue by done.
    rewrite IH. by rewrite <- app_assoc.
Qed.

(** Running out of events is a timeout. *)
Lemma recv_loop_timeout events acc :
  recv_loop events acc = recv_loop (events ++ [RecvTimeout]) acc.
Proof.
  revert acc. induction events as [|e events IH]; intros acc; [done|].
  destruct (stops_loop e) eqn:He.
  - cbn [app]. by rewrite !recv_loop_stop.
  - cbn [app]. by rewrite !recv_loop_continue.
Qed.

(** The loop always comes to a stop: the reads split at the first one that
    stops it. *)
Lemma reads_split events :
  ∃ pre e post,
    events ++ [RecvTimeout] = pre ++ e :: post ∧
    Forall (λ x, stops_loop x = false) pre ∧ stops_loop e = true.
Proof.
  induction events as [|x events (pre & e & post & Heq & Hpre & He)].
  - by exists [], RecvTimeout, [].
  - destruct (stops_loop x) eqn:Hx.
    + by exists [], x, (events ++ [RecvTimeout]).
    + exists (x :: pre), e, post. cbn [app]. rewrite Heq. by repeat constructor.
Qed.

(** C3. Take the reads of one exchange, the timeout that follows the last
    arriving frame included, and split them at the first read [e] that
    yields an [ai_message] frame or a frame with non-empty [data.content],
    or times out, or fails.  Then the loop collects the frames read up to
    [e], nothing after it, and the call returns the last of them, or [None]
    if there is none. *)
Theorem C3_receive_loop_stops_and_returns_last
    (script : ws_script) (pre post : list recv_event) (e : recv_event) :
  incoming script ++ [RecvTimeout] = pre ++ e :: post →
  Forall (λ x, stops_loop x = false) pre →
  stops_loop e = true →
  let seen := flat_map observed (pre ++ [e]) in
  recv_loop (incoming script) [] = seen ∧
  (connects script = true → sends script = true →
   ws_round_trip script = default PNone (last seen)) ∧
  (seen = [] → ws_round_trip script = PNone).
Proof.
  intros Hsplit Hpre He seen.
  assert (Hloop : recv_loop (incoming script) [] = seen).
  { rewrite recv_loop_timeout, Hsplit. by rewrite recv_loop_split. }
  split; [done|]. unfold ws_round_trip, last_response. rewrite Hloop.
  split.
  - intros -> ->. by destruct (closes script).
  - intros ->. by destruct (connects script), (sends script), (closes script).
Qed.

Lemma ws_round_trip_no_connection script :
  connects script = false ∨ sends script = false → ws_round_trip script = PNone.
Proof.
  unfold ws_round_trip. intros [->| ->]; [done|]. by destruct (connects script).
Qed.

Lemma C3_witness :
  let script :=
    {| connects := true; sends := true; closes := true;
       incoming := [RecvEmpty;
                    RecvFrame (Some (PDict {[ "type" := PStr "status" ]}));
                    RecvFrame (Some (PDict sample_reply));
                    RecvFrame (Some (PDict greeting_reply))] |} in
  let seen := flat_map observed
                ([RecvEmpty; RecvFrame (Some (PDict {[ "type" := PStr "status" ]}))]
                 ++ [RecvFrame (Some (PDict sample_reply))]) in
  recv_loop (incoming script) [] = seen ∧
  (connects script = true → sends script = true →
   ws_round_trip script = default PNone (last seen)) ∧
  (seen = [] → ws_round_trip script = PNone).
Proof.
  apply (C3_receive_loop_stops_and_returns_last
           {| connects := true; sends := true; closes := true;
              incoming := [RecvEmpty;
                           RecvFrame (Some (PDict {[ "type" := PStr "status" ]}));
                           RecvFrame (Some (PDict sample_reply));
                           RecvFrame (Some (PDict greeting_reply))] |}
           [RecvEmpty; RecvFrame (Some (PDict {[ "type" := PStr "status" ]}))]
           [RecvFrame (Some (PDict greeting_reply)); RecvTimeout]
           (RecvFrame (Some (PDict sample_reply)))).
  - reflexivity.
  - repeat constructor.
  - reflexivity.
Defined.

(** ** The first page *)

Lemma load_chat_history_fails http thread_id x :
  (∀ headers, fetch_fails (http thread_id headers)) →
  load_chat_history http thread_id x = (Done false, x).
Proof.
  intros Hfail. unfold load_chat_history. run.
  match goal with |- context [http thread_id ?h] => specialize (Hfail h);
    destruct (http thread_id h) as [|status json] end; [done|].
  destruct (status =? 200)%Z eqn:Hs; [|done].
  inversion Hfail as [|? ? Hne| |? v Hv]; subst.
  - by apply Z.eqb_eq in Hs.
  - done.
  - destruct v; try done. by destruct (Hv d).
Qed.

(** C6. When the fetch of the history fails, the run of the first page ends
    on that page, and the message log and the draft are what they were. *)
Theorem C6_failed_fetch_stays_on_create
    (http : string → option string → http_outcome)
    (net : option string → envelope → ws_script) (w : widgets) (x : world) :
  current_page (session x) = Modal →
  nonempty (in_thread_id (on_modal w)) = true →
  (∀ headers, fetch_fails (http (in_thread_id (on_modal w)) headers)) →
  ∃ x', main http net w x = (Done tt, x') ∧
        current_page (session x') = Modal ∧
        messages (session x') = messages (session x) ∧
        scorecard_state (session x') = scorecard_state (session x) ∧
        calls x' = calls x.
Proof.
  intros Hpage Htid Hfail. unfold main.
  erewrite bind_done by reflexivity. cbn beta. rewrite Hpage.
  unfold modal_page.
  destruct (continue_clicked (on_modal w)); [|by exists x].
  destruct (nonempty (in_job_title (on_modal w))); [|by exists x].
  cbn [when]. rewrite Htid.
  do 3 (erewrite bind_done by reflexivity).
  erewrite bind_done by (by apply load_chat_history_fails).
  eexists. split; [reflexivity|]. by destruct x as [[] ?].
Qed.

Lemma C6_witness :
  ∃ x', main no_history (answering []) (submit "Senior Engineer" "t-404" "secret")
          after_first_session = (Done tt, x') ∧
        current_page (session x') = Modal ∧
        messages (session x') = messages (session after_first_session) ∧
        scorecard_state (session x') = scorecard_state (session after_first_session) ∧
        calls x' = calls after_first_session.
Proof.
  apply (C6_failed_fetch_stays_on_create no_history (answering [])
           (submit "Senior Engineer" "t-404" "secret") after_first_session).
  - reflexivity.
  - reflexivity.
  - intros headers. apply fails_status. discriminate.
Defined.

(** A submit without thread id leaves the log and the draft as they are. *)
Lemma submit_without_thread_id_keeps_store http net job x :
  current_page (session x) = Modal →
  nonempty job = true →
  ∃ x', main http net (submit job "" "") x = (Rerun, x') ∧
        current_page (session x') = Chat ∧
        thread_id (session x') = PNone ∧
        messages (session x') = messages (session x) ∧
        scorecard_state (session x') = scorecard_state (session x).
Proof.
  intros Hpage Hjob. unfold main.
  erewrite bind_done by reflexivity. cbn beta. rewrite Hpage.
  unfold modal_page, submit. cbn. rewrite Hjob. cbn [when].
  eexists. split; [reflexivity|]. by destruct x as [[] ?].
Qed.

(** Scenario 6 of the specification: a first create in a new UI session. *)
Example scenario_6 :
  let r := interact no_history (answering []) 2 (submit "Senior Engineer" "" "") fresh_world in
  fst r = Done tt ∧
  current_page (session (snd r)) = Chat ∧
  messages (session (snd r)) = PList [] ∧
  scorecard_state (session (snd r)) = PDict ∅.
Proof. vm_compute. repeat split. Qed.

(** C2, on the code.  After a first session and the back action, a submit
    with a job title and no thread id enters the chat with the log and the
    draft of the first session: [modal_page] resets the thread id and
    nothing else. *)
Theorem C2_create_after_back_keeps_old_session :
  let r := interact no_history (answering []) 2 (submit "Account Manager" "" "")
             after_first_session in
  current_page (session after_first_session) = Modal ∧
  fst r = Done tt ∧
  current_page (session (snd r)) = Chat ∧
  thread_id (session (snd r)) = PNone ∧
  messages (session (snd r)) =
    PList [user_message_dict "I lead a team of 5";
           assistant_message_dict (PStr "Great, tell me about outcomes")] ∧
  scorecard_state (session (snd r)) =
    PDict {[ "situation" := PDict {[ "team_size" := PStr "5" ]} ]}.
Proof. vm_compute. repeat split. Qed.

(** ** Handling a reply, whatever it is *)

Lemma scorecard_only_bind m1 m2 :
  scorecard_only m1 → scorecard_only m2 → scorecard_only (m1;; m2).
Proof.
  intros H1 H2 w. destruct (H1 w) as ([[]| |e] & sc1 & E1 & N1); [|done|].
  - erewrite bind_done by exact E1.
    destruct (H2 (with_session (set_scorecard_state sc1 (session w)) w))
      as (o2 & sc2 & E2 & N2).
    exists o2, sc2. rewrite E2. split; [|done]. by destruct w as [[] ?].
  - erewrite bind_raised by exact E1. by exists (Raised e), sc1.
Qed.

Lemma update_section_only data name : scorecard_only (update_section data name).
Proof.
  intros w. unfold update_section, set_scorecard_item.
  destruct (truthy (dict_get data name)); run.
  - destruct (scorecard_state (session w)) eqn:Hsc;
      try (exists (Raised TypeError), (scorecard_state (session w));
           rewrite set_scorecard_state_same; by destruct w).
    by eexists (Done tt), _.
  - exists (Done tt), (scorecard_state (session w)).
    rewrite set_scorecard_state_same. by destruct w.
Qed.

Lemma update_sections_only data : scorecard_only (update_sections data).
Proof.
  unfold update_sections.
  repeat (apply scorecard_only_bind; [apply update_section_only|]).
  apply update_section_only.
Qed.

Lemma reply_effect_refl response s : reply_effect response s s.
Proof. split; auto. Qed.

Lemma append_message_effect response m w :
  ∃ o s', append_message m w = (o, with_session s' w) ∧ o ≠ Rerun ∧
          reply_effect response (session w) s'.
Proof.
  unfold append_message. run.
  destruct (messages (session w)) as [| | | | |l|] eqn:Hm;
    try (exists (Raised AttributeError), (session w);
         split; [by destruct w|]; split; [done|]; apply reply_effect_refl).
  eexists (Done tt), _. split; [reflexivity|]. split; [done|].
  split; try done; [by left|]. right. by exists l, m.
Qed.

Lemma merge_thread_id_cases response data old :
  reply_thread_id response = dict_get data "thread_id" →
  merge_thread_id data old = old ∨
  (truthy (reply_thread_id response) = true ∧
   merge_thread_id data old = reply_thread_id response).
Proof.
  intros ->. unfold merge_thread_id.
  destruct (truthy (dict_get data "thread_id")); [by right|by left].
Qed.

Lemma reply_effect_reconciled response data sc s :
  reply_thread_id response = dict_get data "thread_id" →
  reply_effect response s
    (set_scorecard_state sc (set_thread_id (merge_thread_id data (thread_id s)) s)).
Proof.
  intros Hid. split; try done; [|by left].
  cbn. by apply merge_thread_id_cases.
Qed.

Lemma reply_effect_reconciled_append response data sc s l m :
  reply_thread_id response = dict_get data "thread_id" →
  messages s = PList l →
  reply_effect response s
    (set_messages (PList (l ++ [m]))
       (set_scorecard_state sc (set_thread_id (merge_thread_id data (thread_id s)) s))).
Proof.
  intros Hid Hl. split; try done.
  - cbn. by apply merge_thread_id_cases.
  - right. by exists l, m.
Qed.

(** The thread id and the sections of an [ai_message]: only the thread id
    and the draft change, and the thread id as the reply says. *)
Lemma update_state_effect data w :
  ∃ o sc, (update_thread_id data;; update_sections data) w =
            (o, with_session
                  (set_scorecard_state sc
                     (set_thread_id (merge_thread_id data (thread_id (session w)))
                        (session w))) w) ∧ o ≠ Rerun.
Proof.
  erewrite bind_done by apply update_thread_id_run.
  destruct (update_sections_only data
              (with_session (set_thread_id (merge_thread_id data (thread_id (session w)))
                               (session w)) w)) as (o & sc & E & N).
  exists o, sc. by rewrite E.
Qed.

Lemma process_response_effect response w :
  ∃ o s', process_response response w = (o, with_session s' w) ∧ o ≠ Rerun ∧
          reply_effect response (session w) s'.
Proof.
  assert (Hraise : ∀ e, ∃ o s', @raise unit e w = (o, with_session s' w) ∧ o ≠ Rerun ∧
                                reply_effect response (session w) s').
  { intros e. exists (Raised e), (session w). rewrite with_session_id.
    split; [done|]. split; [done|]. apply reply_effect_refl. }
  destruct response as [| | | | | |r]; try apply Hraise.
  unfold process_response.
  destruct (eq_str (dict_get r "type") "ai_message" && bool_decide (is_Some (r !! "data")));
    [|apply append_message_effect].
  destruct (dict_get r "data") as [| | | | | |data] eqn:Hdata; try apply Hraise.
  assert (Hid : reply_thread_id (PDict r) = dict_get data "thread_id").
  { cbn. by rewrite Hdata. }
  destruct (dict_get_default data "content" (PStr "Response received"))
    as [| | | |content| |]; try apply Hraise.
  destruct (update_state_effect data w) as (o & sc & E & N).
  destruct (is_connection_established content).
  - eexists o, _. split; [exact E|]. split; [done|].
    by apply reply_effect_reconciled.
  - change (update_thread_id data;; update_sections data;;
            append_message (assistant_message_dict (PStr content)))
      with (update_thread_id data ≫= λ _, update_sections data ≫= λ _,
            append_message (assistant_message_dict (PStr content))).
    assert (Hassoc : ∀ k : M unit,
      (update_thread_id data ≫= λ _, update_sections data ≫= λ _, k) w =
      ((update_thread_id data;; update_sections data) ≫= λ _, k) w).
    { intros k. unfold mbind, M_bind.
      by destruct (update_thread_id data w) as [[| |] ?]. }
    rewrite Hassoc. destruct o as [[]| |e]; [|done|].
    + erewrite bind_done by exact E.
      match goal with |- context [append_message ?m ?W] =>
        destruct (append_message_keeps m W) as [H|(l & Hl & H)]; rewrite H end.
      * eexists (Raised AttributeError), _. split; [reflexivity|]. split; [done|].
        by apply reply_effect_reconciled.
      * eexists (Done tt), _. split; [reflexivity|]. split; [done|].
        by apply reply_effect_reconciled_append.
    + erewrite bind_raised by exact E.
      eexists (Raised e), _. split; [reflexivity|]. split; [done|].
      by apply reply_effect_reconciled.
Qed.

Lemma handle_response_effect response w :
  ∃ o s', handle_response response w = (o, with_session s' w) ∧ o ≠ Rerun ∧
          reply_effect response (session w) s'.
Proof.
  unfold handle_response. destruct (truthy response).
  - apply process_response_effect.
  - exists (Done tt), (session w). rewrite with_session_id.
    split; [done|]. split; [done|]. apply reply_effect_refl.
Qed.




(** The greeting of the samples, run on the code. *)
Example greeting_handled :
  let w' := snd (handle_response (PDict greeting_reply) sample_world) in
  messages (session w') = PList sample_log ∧
  thread_id (session w') = PStr "abc123" ∧
  scorecard_state (session w') =
    PDict {[ "situation" := PDict {[ "team_size" := PStr "3" ]};
             "mission" := PDict {[ "summary" := PStr "lead the team" ]} ]}.
Proof. vm_compute. repeat split. Qed.

(** ** The chat page *)

Section ChatPage.

Variable net : option string → envelope → ws_script.

Lemma send_websocket_message_run s content (w : world) :
  session w = s →
  send_websocket_message net "user_message" (job_title s) content (thread_id s) w =
    (Done (returned (exchange_of net s content)),
     {| session := s; calls := calls w ++ [exchange_of net s content] |}).
Proof. intros <-. reflexivity. Qed.

(** The run that carries a pending message out, step by step. *)
Lemma process_pending_run user_message l x :
  messages (session x) = PList l →
  let s1 := set_messages (PList (l ++ [user_message_dict user_message])) (session x) in
  let c := exchange_of net s1 user_message in
  let x2 := {| session := s1; calls := calls x ++ [c] |} in
  process_pending net user_message x =
    match handle_response (returned c) x2 with
    | (Done _, x3) =>
        (Rerun, with_session (set_pending_message None (set_is_loading false (session x3))) x3)
    | (Rerun, x3) => (Rerun, x3)
    | (Raised e, x3) => (Raised e, x3)
    end.
Proof.
  intros Hl s1 c x2. unfold process_pending.
  erewrite bind_done by (by apply append_message_run).
  erewrite bind_done by reflexivity. cbn beta.
  erewrite bind_done by (by apply send_websocket_message_run).
  unfold mbind at 1, M_bind at 1.
  unfold with_session. cbn [session calls]. fold s1. fold c. fold x2.
  by destruct (handle_response (returned c) x2) as [[[]| |e] x3].
Qed.

Lemma process_pending_no_list user_message x :
  (∀ l, messages (session x) ≠ PList l) →
  process_pending net user_message x = (Raised AttributeError, x).
Proof.
  intros Hl. unfold process_pending. erewrite bind_raised; [done|].
  destruct (append_message_keeps (user_message_dict user_message) x)
    as [H|(l & Hm & _)]; [done|]. by destruct (Hl l).
Qed.

Lemma chat_page_idle i x :
  back_clicked i = false →
  send_clicked i && nonempty (user_input i) = false →
  is_loading (session x) = false →
  chat_page net i x = (Done tt, x).
Proof.
  intros Hb Hs Hload. unfold chat_page. rewrite Hb, Hs. run.
  cbn [andb]. by rewrite Hload.
Qed.

Lemma chat_page_send i x :
  back_clicked i = false →
  send_clicked i && nonempty (user_input i) = true →
  is_loading (session x) = false →
  chat_page net i x =
    (Rerun, with_session (set_pending_message (Some (strip (user_input i)))
                            (set_is_loading true (session x))) x).
Proof.
  intros Hb Hs Hload. unfold chat_page. rewrite Hb, Hs. run.
  by rewrite Hload.
Qed.

Lemma chat_page_loading i x :
  back_clicked i = false →
  is_loading (session x) = true →
  chat_page net i x =
    match pending_message (session x) with
    | Some user_message => process_pending net user_message x
    | None => (Done tt, x)
    end.
Proof.
  intros Hb Hload. unfold chat_page. rewrite Hb. run.
  rewrite Hload, andb_false_r. rewrite Hload.
  by destruct (pending_message (session x)).
Qed.

Lemma chat_page_back i x :
  back_clicked i = true →
  chat_page net i x = (Rerun, with_session (set_current_page Modal (session x)) x).
Proof. intros Hb. unfold chat_page. rewrite Hb. by run. Qed.

End ChatPage.

(** ** One run of the chat page: the calls it makes and the thread id *)

Lemma step_spec_quiet pending x s' :
  thread_id s' = thread_id (session x) → step_spec pending x (with_session s' x).
Proof.
  intros Ht. exists []. cbn. rewrite app_nil_r.
  split; [done|]. split; [lia|]. split; [|by left].
  intros c Hc. by apply elem_of_nil in Hc.
Qed.

Lemma process_pending_step net user_message x :
  step_spec (Some user_message) x (snd (process_pending net user_message x)).
Proof.
  destruct (messages (session x)) as [| | | | |l|] eqn:Hm;
    try (rewrite process_pending_no_list by (intros l'; rewrite Hm; discriminate);
         rewrite <- (with_session_id x) at 2; by apply step_spec_quiet).
  rewrite (process_pending_run net user_message l x Hm). cbn zeta.
  set (s1 := set_messages (PList (l ++ [user_message_dict user_message])) (session x)).
  set (c := exchange_of net s1 user_message).
  set (x2 := {| session := s1; calls := calls x ++ [c] |}).
  destruct (handle_response_effect (returned c) x2) as (o & s' & E & N & Heff).
  rewrite E.
  assert (Hstep : ∀ s'', thread_id s'' = thread_id s' →
            step_spec (Some user_message) x {| session := s''; calls := calls x ++ [c] |}).
  { intros s'' Hs''. exists [c]. cbn [calls session].
    split; [done|]. split; [cbn; lia|]. split.
    - intros c' Hc'. apply list_elem_of_singleton in Hc' as ->. done.
    - rewrite Hs''. destruct (effect_thread_id _ _ _ Heff) as [Hsame|[Htruthy Hnew]].
      + left. by rewrite Hsame.
      + right. exists c. split; [apply list_elem_of_here|done]. }
  destruct o as [[]| |e]; [|done|]; by apply Hstep.
Qed.

Lemma chat_page_step net i x :
  ∃ new,
    calls (snd (chat_page net i x)) = calls x ++ new ∧
    (List.length new ≤ 1)%nat ∧
    (∀ c, c ∈ new → is_loading (session x) = true ∧
                    pending_message (session x) = Some (env_content (sent_frame c))) ∧
    (thread_id (session (snd (chat_page net i x))) = thread_id (session x) ∨
     ∃ c, c ∈ new ∧ truthy (reply_thread_id (returned c)) = true ∧
          thread_id (session (snd (chat_page net i x))) = reply_thread_id (returned c)).
Proof.
  assert (Hquiet : ∀ s', thread_id s' = thread_id (session x) →
    ∃ new, calls (with_session s' x) = calls x ++ new ∧ (List.length new ≤ 1)%nat ∧
      (∀ c, c ∈ new → is_loading (session x) = true ∧
                      pending_message (session x) = Some (env_content (sent_frame c))) ∧
      (thread_id (session (with_session s' x)) = thread_id (session x) ∨
       ∃ c, c ∈ new ∧ truthy (reply_thread_id (returned c)) = true ∧
            thread_id (session (with_session s' x)) = reply_thread_id (returned c))).
  { intros s' Hs'. exists []. cbn. rewrite app_nil_r.
    split; [done|]. split; [lia|]. split; [|by left].
    intros c Hc. by apply elem_of_nil in Hc. }
  destruct (back_clicked i) eqn:Hb.
  { rewrite chat_page_back by done. by apply Hquiet. }
  destruct (is_loading (session x)) eqn:Hload.
  - rewrite chat_page_loading by done.
    destruct (pending_message (session x)) as [m|] eqn:Hp.
    + destruct (process_pending_step net m x) as (new & Hc & Hlen & Hm & Ht).
      exists new. split; [done|]. split; [done|]. split; [|done].
      intros c Hin. split; [done|]. by apply Hm.
    + cbn [snd]. specialize (Hquiet (session x) eq_refl).
      by rewrite with_session_id in Hquiet.
  - destruct (send_clicked i && nonempty (user_input i)) eqn:Hs.
    + rewrite chat_page_send by done. by apply Hquiet.
    + rewrite chat_page_idle by done. cbn [snd].
      specialize (Hquiet (session x) eq_refl).
      by rewrite with_session_id in Hquiet.
Qed.

(** C5. In a state whose loading flag is set, a send is ignored: the run
    goes exactly as it goes without the send.  It makes at most one
    transport call, and that call carries the message that was pending
    before, not the text of the attempt. *)
Theorem C5_send_rejected_while_loading
    (net : option string → envelope → ws_script) (i : chat_inputs) (x : world) :
  is_loading (session x) = true →
  chat_page net i x = chat_page net (without_send i) x ∧
  ∃ new, calls (snd (chat_page net i x)) = calls x ++ new ∧
         (List.length new ≤ 1)%nat ∧
         ∀ c, c ∈ new → pending_message (session x) = Some (env_content (sent_frame c)).
Proof.
  intros Hload. split.
  - destruct (back_clicked i) eqn:Hb.
    + by rewrite !chat_page_back.
    + by rewrite !chat_page_loading.
  - destruct (chat_page_step net i x) as (new & Hc & Hlen & Hm & _).
    exists new. split; [done|]. split; [done|].
    intros c Hin. by apply Hm.
Qed.

Lemma C5_witness :
  let net := answering [RecvFrame (Some (PDict sample_reply))] in
  let i := on_chat (send "and another thing") in
  chat_page net i loading_world = chat_page net (without_send i) loading_world ∧
  ∃ new, calls (snd (chat_page net i loading_world)) = calls loading_world ++ new ∧
         (List.length new ≤ 1)%nat ∧
         ∀ c, c ∈ new →
              pending_message (session loading_world) = Some (env_content (sent_frame c)).
Proof.
  apply (C5_send_rejected_while_loading
           (answering [RecvFrame (Some (PDict sample_reply))])
           (on_chat (send "and another thing")) loading_world).
  reflexivity.
Defined.

(** ** The thread id over a session *)

Lemma handle_response_keeps_thread_id response w :
  truthy (reply_thread_id response) = false →
  thread_id (session (snd (handle_response response w))) = thread_id (session w).
Proof.
  intros Hfalsy.
  destruct (handle_response_effect response w) as (o & s' & E & _ & Heff).
  rewrite E. cbn.
  destruct (effect_thread_id _ _ _ Heff) as [Hsame|[Htruthy _]]; [done|congruence].
Qed.

(** C9. Over any number of runs of the chat page, whatever the user does
    and whatever the network answers: a non-empty thread id stays non-empty,
    and it is the one the session had or the non-empty thread id of a reply
    returned by one of the calls made meanwhile.  A reply without a thread
    id, or with an empty one, leaves the thread id as it is. *)
Theorem C9_thread_id_replaced_only_by_reply
    (steps : list ((option string → envelope → ws_script) * chat_inputs)) (x : world) :
  truthy (thread_id (session x)) = true →
  (∃ new,
     calls (chat_runs steps x) = calls x ++ new ∧
     truthy (thread_id (session (chat_runs steps x))) = true ∧
     (thread_id (session (chat_runs steps x)) = thread_id (session x) ∨
      ∃ c, c ∈ new ∧ truthy (reply_thread_id (returned c)) = true ∧
           thread_id (session (chat_runs steps x)) = reply_thread_id (returned c))) ∧
  (∀ response w,
     truthy (reply_thread_id response) = false →
     thread_id (session (snd (handle_response response w))) = thread_id (session w)).
Proof.
  intros Htruthy. split; [|apply handle_response_keeps_thread_id].
  revert x Htruthy. induction steps as [|[net i] steps IH]; intros x Htruthy.
  - exists []. cbn. rewrite app_nil_r. by repeat split; [|left].
  - cbn [chat_runs foldl fst snd].
    destruct (chat_page_step net i x) as (new1 & Hc1 & _ & _ & Ht1).
    set (x1 := snd (chat_page net i x)) in *.
    assert (Htruthy1 : truthy (thread_id (session x1)) = true).
    { destruct Ht1 as [->|(c & _ & Hc & ->)]; done. }
    destruct (IH x1 Htruthy1) as (new2 & Hc2 & Htr2 & Ht2).
    fold (chat_runs steps x1).
    exists (new1 ++ new2). split; [by rewrite Hc2, Hc1, app_assoc|].
    split; [done|].
    destruct Ht2 as [Hsame|(c & Hin & Hc & Hnew)].
    + rewrite Hsame. destruct Ht1 as [?|(c & Hin & Hc & Hnew)]; [by left|].
      right. exists c. split; [|done]. apply elem_of_app. by left.
    + right. exists c. split; [|done]. apply elem_of_app. by right.
Qed.

Lemma C9_witness :
  let steps := [ (answering [RecvFrame (Some (PDict sample_reply))],
                  on_chat (send "and another thing"));
                 (answering [RecvFrame (Some (PDict sample_reply))], on_chat quiet) ] in
  (∃ new,
     calls (chat_runs steps loading_world) = calls loading_world ++ new ∧
     truthy (thread_id (session (chat_runs steps loading_world))) = true ∧
     (thread_id (session (chat_runs steps loading_world)) = thread_id (session loading_world) ∨
      ∃ c, c ∈ new ∧ truthy (reply_thread_id (returned c)) = true ∧
           thread_id (session (chat_runs steps loading_world)) = reply_thread_id (returned c))) ∧
  (∀ response w,
     truthy (reply_thread_id response) = false →
     thread_id (session (snd (handle_response response w))) = thread_id (session w)).
Proof.
  apply (C9_thread_id_replaced_only_by_reply
           [ (answering [RecvFrame (Some (PDict sample_reply))],
              on_chat (send "and another thing"));
             (answering [RecvFrame (Some (PDict sample_reply))], on_chat quiet) ]
           loading_world).
  reflexivity.
Defined.

Example thread_id_replaced_by_reply :
  thread_id (session loading_world) = PStr "thread-1" ∧
  thread_id (session (snd (chat_page (answering [RecvFrame (Some (PDict sample_reply))])
                             (on_chat quiet) loading_world))) = PStr "abc123".
Proof. vm_compute. by split. Qed.

(** ** A user action and the reruns it starts *)

Section Interaction.

Variable http : string → option string → http_outcome.
Variable net : option string → envelope → ws_script.

Lemma main_chat w x :
  current_page (session x) = Chat → main http net w x = chat_page net (on_chat w) x.
Proof. intros Hp. unfold main. run. by rewrite Hp. Qed.

Lemma main_modal w x :
  current_page (session x) = Modal → main http net w x = modal_page http (on_modal w) x.
Proof. intros Hp. unfold main. run. by rewrite Hp. Qed.

Lemma main_quiet_idle x :
  is_loading (session x) = false → main http net quiet x = (Done tt, x).
Proof.
  intros Hload. destruct (current_page (session x)) eqn:Hp.
  - by rewrite main_modal.
  - rewrite main_chat by done. by apply chat_page_idle.
Qed.

(** A run without user action reruns only after it has carried a pending
    message out, and then the loading flag is down. *)
Lemma main_quiet_rerun x x' :
  main http net quiet x = (Rerun, x') → is_loading (session x') = false.
Proof.
  destruct (current_page (session x)) eqn:Hp.
  { by rewrite main_modal. }
  rewrite main_chat by done.
  destruct (is_loading (session x)) eqn:Hload.
  2: { by rewrite chat_page_idle. }
  rewrite chat_page_loading by done.
  destruct (pending_message (session x)) as [m|]; [|done].
  destruct (messages (session x)) as [| | | | |l|] eqn:Hm;
    try (by rewrite process_pending_no_list by (intros l'; rewrite Hm; discriminate)).
  rewrite (process_pending_run net m l x Hm). cbn zeta.
  match goal with |- context [handle_response ?r ?w] =>
    destruct (handle_response_effect r w) as (o & s' & E & N & _); rewrite E end.
  destruct o as [[]| |e]; [|done|done]. by intros [= <-].
Qed.

(** Two reruns are all a user action can start. *)
Lemma interact_settles w x : fst (interact http net 2 w x) ≠ Rerun.
Proof.
  cbn [interact].
  destruct (main http net w x) as [[[]| |e] x1] eqn:E1; [done| |done].
  destruct (main http net quiet x1) as [[[]| |e] x2] eqn:E2; [done| |done].
  apply main_quiet_rerun in E2. by rewrite main_quiet_idle.
Qed.


End Interaction.



(** With the flag stuck, the next run of the page, whatever starts it,
    appends the message and sends it once more. *)
Example stuck_loading_sends_again :
  let reply := PDict {[ "type" := PStr "ai_message";
                        "data" := PDict {[ "content" := PNone ]} ]} in
  let net := answering [RecvFrame (Some reply)] in
  let x := snd (interact no_history net 2 (send "I lead a team of 5") chat_world) in
  let r := interact no_history net 2 quiet x in
  List.length (calls (snd r)) = 2%nat ∧
  messages (session (snd r)) =
    PList [user_message_dict "I lead a team of 5"; user_message_dict "I lead a team of 5"].
Proof. vm_compute. by split. Qed.

(** Scenario 9 of the specification: nothing arrives before the timeout. *)
Example scenario_9 :
  let r := interact no_history (answering []) 2 (send "I lead a team of 5") chat_world in
  fst r = Done tt ∧
  map returned (calls (snd r)) = [PNone] ∧
  session (snd r) =
    set_messages (PList [user_message_dict "I lead a team of 5"]) (session chat_world).
Proof. vm_compute. repeat split. Qed.

(** ** The string functions and the truth test, on examples *)

Example strip_example : strip "  Hi there  " = "Hi there".
Proof. reflexivity. Qed.

Example lower_example : lower "Connection ESTABLISHED" = "connection established".
Proof. reflexivity. Qed.

Example truthy_empty_dict : truthy (PDict ∅) = false.
Proof. reflexivity. Qed.

Example truthy_dict : truthy (PDict {[ "a" := PNone ]}) = true.
Proof. vm_compute. reflexivity. Qed.

(** * Further properties of the code *)

(** ** The receive loop *)

Lemma stops_loop_quiet v :
  stops_loop (RecvFrame (Some v)) = false ↔ quiet_frame v.
Proof.
  unfold quiet_frame. cbn [stops_loop].
  destruct (is_ai_message_frame v), (has_nested_content v), (inspectable v);
    cbn; intuition congruence.
Qed.

Lemma observed_continue e :
  stops_loop e = false → Forall quiet_frame (observed e).
Proof.
  destruct e as [|[v|]| |]; cbn [observed]; try (by constructor).
  intros H. constructor; [by apply stops_loop_quiet|constructor].
Qed.

Lemma observed_short e : (List.length (observed e) ≤ 1)%nat.
Proof. destruct e as [|[v|]| |]; cbn; lia. Qed.

Lemma recv_loop_shape events acc :
  ∃ init tail,
    recv_loop events acc = acc ++ init ++ tail ∧
    Forall quiet_frame init ∧
    (List.length tail ≤ 1)%nat ∧
    (init ++ tail) `prefix_of` flat_map observed events.
Proof.
  revert acc. induction events as [|e events IH]; intros acc.
  - exists [], []. cbn. rewrite app_nil_r. by repeat split; [constructor|lia|].
  - destruct (stops_loop e) eqn:He.
    + exists [], (observed e). rewrite recv_loop_stop by done.
      split; [done|]. split; [constructor|]. split; [apply observed_short|].
      cbn [flat_map app]. by apply prefix_app_r.
    + destruct (IH (acc ++ observed e)) as (init & tail & Heq & Hq & Hlen & Hpre).
      exists (observed e ++ init), tail. rewrite recv_loop_continue by done.
      rewrite Heq. split; [by rewrite <- !app_assoc|].
      split; [apply Forall_app; split; [by apply observed_continue|done]|].
      split; [done|]. cbn [flat_map]. rewrite <- app_assoc. by apply prefix_app.
Qed.

(** X1. The frames the loop keeps are the first frames that arrived, in their
    order, and only the last of them can be an [ai_message] or carry a
    content: every frame before the one returned is a dict without either
    (and with a dict as [data], if it has one). *)
Theorem recv_loop_keeps_quiet_frames_then_one (events : list recv_event) :
  recv_loop events [] `prefix_of` flat_map observed events ∧
  ∀ init v, recv_loop events [] = init ++ [v] → Forall quiet_frame init.
Proof.
  destruct (recv_loop_shape events []) as (init0 & tail & Heq & Hq & Hlen & Hpre).
  cbn [app] in Heq. rewrite Heq. split; [done|].
  intros init v Hv. destruct tail as [|t [|? ?]]; [| |cbn in Hlen; lia].
  - rewrite app_nil_r in Hv. subst init0. by apply Forall_app in Hq as [? _].
  - apply app_inj_tail in Hv as [-> _]. done.
Qed.

(** X2. Reads that return an empty text make no difference to the result. *)
Theorem empty_reads_are_skipped (script : ws_script) :
  ws_round_trip
    {| connects := connects script; sends := sends script;
       incoming := List.filter (λ e, negb (is_empty_read e)) (incoming script);
       closes := closes script |}
  = ws_round_trip script.
Proof.
  assert (Hloop : ∀ events acc,
    recv_loop (List.filter (λ e, negb (is_empty_read e)) events) acc
    = recv_loop events acc).
  { induction events as [|e events IH]; intros acc; [done|].
    destruct e as [|p| |]; cbn [List.filter is_empty_read negb].
    - by rewrite IH.
    - destruct (stops_loop (RecvFrame p)) eqn:He.
      + by rewrite !recv_loop_stop.
      + rewrite !recv_loop_continue by done. apply IH.
    - done.
    - done. }
  unfold ws_round_trip. cbn [connects sends incoming closes]. by rewrite Hloop.
Qed.

(** ** The greeting test *)









(** ** Handling a reply: what it changes and what it keeps *)

(** X4. Whatever the reply and whatever the state, handling it makes no
    transport call and does not rerun; the page, the job title, the token,
    the loading flag and the pending message stay as they are, the thread id
    stays or becomes the non-empty one of the reply, and the log stays or
    grows by exactly one message. *)
Theorem handle_response_changes_only_the_store (response : pyval) (w : world) :
  ∃ o s', handle_response response w = (o, {| session := s'; calls := calls w |}) ∧
          o ≠ Rerun ∧
          reply_effect response (session w) s'.
Proof. apply handle_response_effect. Qed.

Lemma handle_response_draft response w d :
  scorecard_state (session w) = PDict d →
  scorecard_state (session (snd (handle_response response w))) = PDict d ∨
  ∃ data, scorecard_state (session (snd (handle_response response w)))
          = PDict (merge_sections data d).
Proof.
  intros Hd. unfold handle_response.
  destruct (truthy response); [|by left].
  cbn [when]. destruct response as [| | | | | |r]; try (by left).
  unfold process_response.
  destruct (eq_str (dict_get r "type") "ai_message") eqn:Hty; cbn [andb].
  2: { destruct (append_message_keeps
                   (assistant_message_dict
                      (dict_get_default r "content" (PStr "Response received"))) w)
         as [H|(l & _ & H)]; rewrite H; by left. }
  destruct (bool_decide (is_Some (r !! "data"))) eqn:Hdata.
  2: { destruct (append_message_keeps
                   (assistant_message_dict
                      (dict_get_default r "content" (PStr "Response received"))) w)
         as [H|(l & _ & H)]; rewrite H; by left. }
  apply bool_decide_eq_true in Hdata as [v Hv].
  rewrite (dict_get_Some _ _ _ Hv).
  destruct v as [| | | | | |data]; try (by left).
  destruct (dict_get_default data "content" (PStr "Response received"))
    as [| | | |content| |] eqn:Hc; try (by left).
  right. exists data.
  pose proof (process_ai_message_run r data content d w Hty Hv Hc Hd) as Hrun.
  unfold process_response in Hrun.
  rewrite Hty, bool_decide_eq_true_2 in Hrun by (by rewrite Hv).
  cbn [andb] in Hrun. rewrite (dict_get_Some _ _ _ Hv), Hc in Hrun.
  rewrite Hrun.
  destruct (is_connection_established content); [by destruct w as [[] ?]|].
  match goal with |- context [append_message ?m ?W] =>
    destruct (append_message_keeps m W) as [H|(l & _ & H)]; rewrite H end;
    by destruct w as [[] ?].
Qed.

(** X5. A draft that is a dict stays a dict when a reply is handled, whatever
    the reply: no entry is ever removed, no key other than the seven section
    names is ever written, and an entry that differs from the one before
    holds a truthy value. *)
Theorem handle_response_keeps_the_draft_a_dict
    (response : pyval) (w : world) (d : gmap string pyval) :
  scorecard_state (session w) = PDict d →
  ∃ d', scorecard_state (session (snd (handle_response response w))) = PDict d' ∧
        (∀ k, k ∉ section_order → d' !! k = d !! k) ∧
        (∀ k, is_Some (d !! k) → is_Some (d' !! k)) ∧
        (∀ k v, d' !! k = Some v →
                d !! k = Some v ∨ (k ∈ section_order ∧ truthy v = true)).
Proof.
  intros Hd. destruct (handle_response_draft response w d Hd) as [H|[data H]].
  - exists d. split; [done|]. split; [done|]. split; [done|]. by left.
  - exists (merge_sections data d). split; [done|].
    split; [|split].
    + intros k Hk. rewrite merge_sections_lookup. by rewrite decide_False.
    + intros k Hk. rewrite merge_sections_lookup.
      destruct (decide (k ∈ section_order)); [|done].
      by destruct (truthy (dict_get data k)).
    + intros k v. rewrite merge_sections_lookup.
      destruct (decide (k ∈ section_order)) as [Hin|]; [|by left].
      destruct (truthy (dict_get data k)) eqn:Ht; [|by left].
      intros [= <-]. by right.
Qed.

Lemma handle_response_keeps_the_draft_a_dict_witness :
  ∃ d', scorecard_state (session (snd (handle_response (PDict sample_reply) sample_world)))
          = PDict d' ∧
        (∀ k, k ∉ section_order →
              d' !! k = ({[ "situation" := PDict {[ "team_size" := PStr "3" ]} ]}
                           : gmap string pyval) !! k) ∧
        (∀ k, is_Some (({[ "situation" := PDict {[ "team_size" := PStr "3" ]} ]}
                          : gmap string pyval) !! k) → is_Some (d' !! k)) ∧
        (∀ k v, d' !! k = Some v →
                ({[ "situation" := PDict {[ "team_size" := PStr "3" ]} ]}
                   : gmap string pyval) !! k = Some v
                ∨ (k ∈ section_order ∧ truthy v = true)).
Proof.
  apply (handle_response_keeps_the_draft_a_dict (PDict sample_reply) sample_world
           {[ "situation" := PDict {[ "team_size" := PStr "3" ]} ]}).
  reflexivity.
Defined.

(** X6. A reply without the [ai_message]-with-[data] envelope changes neither
    the thread id nor the draft, whatever else it carries (a [thread_id], a
    [data], sections): at most a message is appended. *)
Theorem legacy_reply_changes_only_the_log (r : gmap string pyval) (w : world) :
  eq_str (dict_get r "type") "ai_message" && bool_decide (is_Some (r !! "data")) = false →
  let w' := snd (handle_response (PDict r) w) in
  thread_id (session w') = thread_id (session w) ∧
  scorecard_state (session w') = scorecard_state (session w) ∧
  (session w' = session w ∨
   ∃ l, messages (session w) = PList l ∧
        session w' =
          set_messages
            (PList (l ++ [assistant_message_dict
                            (dict_get_default r "content" (PStr "Response received"))]))
            (session w)).
Proof.
  intros Hlegacy w'. subst w'. unfold handle_response.
  destruct (truthy (PDict r)); [|by repeat split; [..|left]].
  cbn [when]. unfold process_response. rewrite Hlegacy.
  match goal with |- context [append_message ?m ?W] =>
    destruct (append_message_keeps m W) as [H|(l & Hl & H)]; rewrite H end.
  - by repeat split; [..|left].
  - cbn. repeat split; [done..|]. right. by exists l.
Qed.

Lemma legacy_reply_changes_only_the_log_witness :
  let r : gmap string pyval :=
    {[ "content" := PStr "hello"; "thread_id" := PStr "other";
       "data" := PDict {[ "mission" := PDict {[ "summary" := PStr "x" ]} ]} ]} in
  let w' := snd (handle_response (PDict r) sample_world) in
  thread_id (session w') = thread_id (session sample_world) ∧
  scorecard_state (session w') = scorecard_state (session sample_world) ∧
  (session w' = session sample_world ∨
   ∃ l, messages (session sample_world) = PList l ∧
        session w' =
          set_messages
            (PList (l ++ [assistant_message_dict
                            (dict_get_default r "content" (PStr "Response received"))]))
            (session sample_world)).
Proof.
  apply (legacy_reply_changes_only_the_log
           {[ "content" := PStr "hello"; "thread_id" := PStr "other";
              "data" := PDict {[ "mission" := PDict {[ "summary" := PStr "x" ]} ]} ]}
           sample_world).
  reflexivity.
Defined.





(** ** Runs of the chat page *)

Section ChatRuns.

Variable http : string → option string → http_outcome.
Variable net : option string → envelope → ws_script.

(** What the run that carries a message out does, in one statement. *)
Lemma process_pending_cases m l x :
  messages (session x) = PList l →
  let s1 := set_messages (PList (l ++ [user_message_dict m])) (session x) in
  let c := exchange_of net s1 m in
  ∃ o s',
    handle_response (returned c) {| session := s1; calls := calls x ++ [c] |}
      = (o, {| session := s'; calls := calls x ++ [c] |}) ∧
    o ≠ Rerun ∧
    reply_effect (returned c) s1 s' ∧
    process_pending net m x =
      match o with
      | Done _ => (Rerun, {| session := set_pending_message None (set_is_loading false s');
                             calls := calls x ++ [c] |})
      | _ => (o, {| session := s'; calls := calls x ++ [c] |})
      end.
Proof.
  intros Hl s1 c.
  destruct (handle_response_effect (returned c) {| session := s1; calls := calls x ++ [c] |})
    as (o & s' & E & N & Heff).
  exists o, s'. split; [exact E|]. split; [done|]. split; [done|].
  rewrite (process_pending_run net m l x Hl). cbn zeta. fold s1. fold c.
  rewrite E. by destruct o as [[]| |e].
Qed.


(** X9. When the run that carries a message out ends in an exception, the
    loading flag and the pending message are still what they were: the
    message will be carried out again. *)
Theorem exception_leaves_the_message_pending (m : string) (e : exn) (x : world) :
  fst (process_pending net m x) = Raised e →
  is_loading (session (snd (process_pending net m x))) = is_loading (session x) ∧
  pending_message (session (snd (process_pending net m x))) = pending_message (session x).
Proof.
  destruct (messages (session x)) as [| | | | |l|] eqn:Hm;
    try (by rewrite process_pending_no_list by (intros l'; rewrite Hm; discriminate)).
  destruct (process_pending_cases m l x Hm) as (o & s' & _ & N & Heff & Hrun).
  rewrite Hrun. destruct o as [[]| |e']; [done|done|]. intros _. cbn [snd session].
  by rewrite (effect_is_loading _ _ _ Heff), (effect_pending _ _ _ Heff).
Qed.

(** X10. The back action changes the page and nothing else; it comes first, so
    nothing is sent even if a send was submitted with it or a message is
    pending, and the log, the draft, the thread id, the loading flag and the
    pending message all survive it. *)
Theorem back_changes_the_page_only (w : widgets) (x : world) :
  current_page (session x) = Chat →
  back_clicked (on_chat w) = true →
  interact http net 2 w x =
    (Done tt, {| session := set_current_page Modal (session x); calls := calls x |}).
Proof.
  intros Hp Hb. cbn [interact]. rewrite main_chat by done.
  rewrite chat_page_back by done. by rewrite main_modal.
Qed.

End ChatRuns.


Lemma exception_leaves_the_message_pending_witness :
  let net := answering [RecvFrame (Some (PList [PInt 1]))] in
  is_loading (session (snd (process_pending net "I lead a team of 5" loading_world)))
    = is_loading (session loading_world) ∧
  pending_message (session (snd (process_pending net "I lead a team of 5" loading_world)))
    = pending_message (session loading_world).
Proof.
  apply (exception_leaves_the_message_pending
           (answering [RecvFrame (Some (PList [PInt 1]))])
           "I lead a team of 5" AttributeError loading_world).
  reflexivity.
Defined.

Lemma back_changes_the_page_only_witness :
  interact no_history (answering []) 2 back loading_world =
    (Done tt, {| session := set_current_page Modal (session loading_world);
                 calls := calls loading_world |}).
Proof.
  apply (back_changes_the_page_only no_history (answering []) back loading_world);
    reflexivity.
Defined.

(** ** A send, from the click to the idle page *)


Section Sends.

Variable http : string → option string → http_outcome.
Variable net : option string → envelope → ws_script.




End Sends.



(** ** From one exchange to the next *)




(** ** The first page, once more *)

Lemma typed_token tok : (if nonempty tok then tok else "") = tok.
Proof.
  unfold nonempty. destruct (String.eqb tok "") eqn:H; [|done].
  apply String.eqb_eq in H. by subst.
Qed.

Section Create.

Variable http : string → option string → http_outcome.
Variable net : option string → envelope → ws_script.



(** X15. A resume that succeeds: with a job title, a thread id and a history
    endpoint that answers 200 with a JSON object, the chat opens with the
    log and the draft of the body, an absent [messages] giving the empty
    list and an absent [state] the empty dict; what the session held before
    is replaced, and nothing is sent. *)
Theorem resume_replaces_the_store_by_the_history
    (job tid tok : string) (body : gmap string pyval) (x : world) :
  current_page (session x) = Modal →
  is_loading (session x) = false →
  nonempty job = true →
  nonempty tid = true →
  http tid (if nonempty tok then Some ("Bearer " +:+ tok) else None)
    = HttpResponse 200 (Some (PDict body)) →
  let r := interact http net 2 (submit job tid tok) x in
  current_page (session (snd r)) = Chat ∧
  job_title (session (snd r)) = job ∧
  thread_id (session (snd r)) = PStr tid ∧
  auth_token (session (snd r)) = tok ∧
  messages (session (snd r)) = dict_get_default body "messages" (PList []) ∧
  scorecard_state (session (snd r)) = dict_get_default body "state" (PDict ∅) ∧
  calls (snd r) = calls x.
Proof.
  intros Hp Hload Hjob Htid Hhttp r. subst r.
  cbn [interact]. rewrite main_modal by done.
  unfold modal_page, submit. cbn [on_modal continue_clicked in_job_title in_thread_id
                                  in_auth_token].
  rewrite Hjob, Htid, typed_token. cbn [when].
  unfold load_chat_history. run.
  cbn [auth_token set_auth_token]. rewrite Hhttp. cbn [Z.eqb Pos.eqb].
  rewrite main_quiet_idle by done. done.
Qed.

(** X16. A resume that fails leaves the page, the log and the draft alone, but
    the job title, the thread id and the token typed are already stored. *)
Theorem failed_resume_still_stores_what_was_typed (job tid tok : string) (x : world) :
  current_page (session x) = Modal →
  nonempty job = true →
  nonempty tid = true →
  (∀ headers, fetch_fails (http tid headers)) →
  main http net (submit job tid tok) x =
    (Done tt,
     {| session := set_auth_token tok (set_thread_id (PStr tid) (set_job_title job (session x)));
        calls := calls x |}).
Proof.
  intros Hp Hjob Htid Hfail. rewrite main_modal by done.
  unfold modal_page, submit. cbn [on_modal continue_clicked in_job_title in_thread_id
                                  in_auth_token].
  rewrite Hjob, Htid, typed_token. cbn [when].
  do 3 (erewrite bind_done by reflexivity).
  by erewrite bind_done by (by apply load_chat_history_fails).
Qed.

End Create.


Lemma resume_replaces_the_store_by_the_history_witness :
  let http : string → option string → http_outcome :=
    λ _ _, HttpResponse 200 (Some (PDict {[ "messages" := PList sample_log ]})) in
  let r := interact http (answering []) 2 (submit "Account Manager" "abc123" "")
             after_first_session in
  current_page (session (snd r)) = Chat ∧
  job_title (session (snd r)) = "Account Manager" ∧
  thread_id (session (snd r)) = PStr "abc123" ∧
  auth_token (session (snd r)) = "" ∧
  messages (session (snd r))
    = dict_get_default {[ "messages" := PList sample_log ]} "messages" (PList []) ∧
  scorecard_state (session (snd r))
    = dict_get_default {[ "messages" := PList sample_log ]} "state" (PDict ∅) ∧
  calls (snd r) = calls after_first_session.
Proof.
  apply (resume_replaces_the_store_by_the_history
           (λ _ _, HttpResponse 200 (Some (PDict {[ "messages" := PList sample_log ]})))
           (answering []) "Account Manager" "abc123" ""
           {[ "messages" := PList sample_log ]} after_first_session); reflexivity.
Defined.

Lemma failed_resume_still_stores_what_was_typed_witness :
  main no_history (answering []) (submit "Account Manager" "t-404" "s3cret")
    after_first_session =
    (Done tt,
     {| session := set_auth_token "s3cret"
                     (set_thread_id (PStr "t-404")
                        (set_job_title "Account Manager" (session after_first_session)));
        calls := calls after_first_session |}).
Proof.
  apply (failed_resume_still_stores_what_was_typed no_history (answering [])
           "Account Manager" "t-404" "s3cret" after_first_session); try reflexivity.
  intros headers. apply fails_status. discriminate.
Defined.

(** ** Every user action *)

Section Actions.

Variable http : string → option string → http_outcome.
Variable net : option string → envelope → ws_script.

Lemma modal_page_frame i x :
  ∃ o s', modal_page http i x = (o, {| session := s'; calls := calls x |}) ∧
          ((∃ l, messages s' = PList l) ∧ (∃ d, scorecard_state s' = PDict d)
           ∨ (messages s' = messages (session x) ∧
              scorecard_state s' = scorecard_state (session x))
           ∨ ∃ thread_id headers status body,
               http thread_id headers = HttpResponse status (Some (PDict body)) ∧
               messages s' = dict_get_default body "messages" (PList []) ∧
               scorecard_state s' = dict_get_default body "state" (PDict ∅)).
Proof.
  unfold modal_page.
  destruct (continue_clicked i);
    [|exists (Done tt), (session x); split; [by destruct x|by right; left]].
  destruct (nonempty (in_job_title i));
    [|exists (Done tt), (session x); split; [by destruct x|by right; left]].
  cbn [when]. destruct (nonempty (in_thread_id i)).
  2: { run. eexists _, _. split; [reflexivity|]. right; left. done. }
  unfold load_chat_history. run.
  match goal with |- context [http ?t ?h] =>
    destruct (http t h) as [|status json] eqn:Hhttp end.
  { eexists _, _. split; [reflexivity|]. right; left. done. }
  destruct (status =? 200)%Z.
  2: { eexists _, _. split; [reflexivity|]. right; left. done. }
  destruct json as [[| | | | | |body]|];
    try (eexists _, _; split; [reflexivity|]; right; left; done).
  eexists _, _. split; [reflexivity|]. right; right.
  eexists _, _, _, body. split; [exact Hhttp|]. done.
Qed.

Lemma main_calls w x :
  ∃ new, calls (snd (main http net w x)) = calls x ++ new ∧
         (List.length new ≤ 1)%nat ∧
         (new ≠ [] → fst (main http net w x) = Rerun →
          is_loading (session (snd (main http net w x))) = false).
Proof.
  assert (Hnone : ∀ o s',
    ∃ new, calls (snd (o, {| session := s'; calls := calls x |})) = calls x ++ new ∧
           (List.length new ≤ 1)%nat ∧
           (new ≠ [] → fst (o : outcome unit, {| session := s'; calls := calls x |}) = Rerun →
            is_loading (session (snd (o, {| session := s'; calls := calls x |}))) = false)).
  { intros o s'. exists []. cbn. rewrite app_nil_r. split; [done|]. split; [lia|done]. }
  assert (Hsame : ∀ o : outcome unit,
    ∃ new, calls (snd (o, x)) = calls x ++ new ∧
           (List.length new ≤ 1)%nat ∧
           (new ≠ [] → fst (o, x) = Rerun → is_loading (session (snd (o, x))) = false)).
  { intros o. exists []. cbn. rewrite app_nil_r. split; [done|]. split; [lia|done]. }
  destruct (current_page (session x)) eqn:Hp.
  - rewrite main_modal by done.
    destruct (modal_page_frame (on_modal w) x) as (o & s' & E & _). rewrite E.
    apply Hnone.
  - rewrite main_chat by done.
    destruct (back_clicked (on_chat w)) eqn:Hb.
    { rewrite chat_page_back by done. apply Hnone. }
    destruct (is_loading (session x)) eqn:Hload.
    2: { destruct (send_clicked (on_chat w) && nonempty (user_input (on_chat w))) eqn:Hs.
         - rewrite chat_page_send by done. apply Hnone.
         - rewrite chat_page_idle by done. apply Hsame. }
    rewrite chat_page_loading by done.
    destruct (pending_message (session x)) as [m|].
    2: { apply Hsame. }
    destruct (messages (session x)) as [| | | | |l|] eqn:Hm;
      try (rewrite process_pending_no_list by (intros l'; rewrite Hm; discriminate);
           apply Hsame).
    destruct (process_pending_cases net m l x Hm) as (o & s' & _ & N & _ & Hrun).
    rewrite Hrun. eexists [_].
    destruct o as [[]| |e]; cbn; (split; [done|]); (split; [lia|]); done.
Qed.

(** X17. A user action comes to rest after at most two reruns, and all its runs
    together make at most one transport call. *)
Theorem user_action_settles_with_at_most_one_call (w : widgets) (x : world) :
  fst (interact http net 2 w x) ≠ Rerun ∧
  ∃ new, calls (snd (interact http net 2 w x)) = calls x ++ new ∧
         (List.length new ≤ 1)%nat.
Proof.
  split; [apply interact_settles|].
  cbn [interact].
  destruct (main_calls w x) as (new1 & Hc1 & Hlen1 & Hload1).
  destruct (main http net w x) as [[[]| |e] x1] eqn:E1;
    try (by exists new1).
  cbn [fst snd] in *.
  destruct new1 as [|c1 new1].
  - rewrite app_nil_r in Hc1.
    destruct (main_calls quiet x1) as (new2 & Hc2 & Hlen2 & _).
    destruct (main http net quiet x1) as [[[]| |e] x2] eqn:E2;
      cbn [fst snd] in *; try (exists new2; by rewrite Hc2, Hc1).
    apply main_quiet_rerun in E2 as Hload2.
    rewrite main_quiet_idle by done. exists new2. cbn. by rewrite Hc2, Hc1.
  - rewrite main_quiet_idle by (by apply Hload1).
    by exists (c1 :: new1).
Qed.

End Actions.

(** ** Invariants of the store *)

Lemma well_typed_same s s' :
  messages s' = messages s → scorecard_state s' = scorecard_state s →
  well_typed s → well_typed s'.
Proof. intros Hm Hs [[l Hl] [d Hd]]. split; eexists; [by rewrite Hm|by rewrite Hs]. Qed.

Lemma process_pending_store net m l d x :
  messages (session x) = PList l →
  scorecard_state (session x) = PDict d →
  let x' := snd (process_pending net m x) in
  (∃ rest, messages (session x') = PList (l ++ user_message_dict m :: rest) ∧
           (List.length rest ≤ 1)%nat) ∧
  (∃ d', scorecard_state (session x') = PDict d').
Proof.
  intros Hl Hd x'. subst x'.
  destruct (process_pending_cases net m l x Hl) as (o & s' & E & N & Heff & Hrun).
  assert (Hrest : ∃ rest, messages s' = PList (l ++ user_message_dict m :: rest) ∧
                          (List.length rest ≤ 1)%nat).
  { destruct (effect_messages _ _ _ Heff) as [Hsame|(l0 & m' & Hl0 & Hnew)].
    - exists []. rewrite Hsame. split; [done|cbn; lia].
    - exists [m']. rewrite Hnew. cbn in Hl0. injection Hl0 as <-.
      rewrite <- app_assoc. split; [done|cbn; lia]. }
  assert (Hdict : ∃ d', scorecard_state s' = PDict d').
  { match type of E with handle_response ?r ?W = _ =>
      destruct (handle_response_draft r W d) as [H|[data H]]; [done| |];
      rewrite E in H; by eexists end. }
  rewrite Hrun. by destruct o as [[]| |e].
Qed.

Lemma chat_page_store net i l d x :
  messages (session x) = PList l →
  scorecard_state (session x) = PDict d →
  let x' := snd (chat_page net i x) in
  (∃ rest, messages (session x') = PList (l ++ rest) ∧ (List.length rest ≤ 2)%nat) ∧
  (∃ d', scorecard_state (session x') = PDict d').
Proof.
  intros Hl Hd x'. subst x'.
  assert (Hsame : ∀ s', messages s' = PList l → scorecard_state s' = PDict d →
    (∃ rest, messages s' = PList (l ++ rest) ∧ (List.length rest ≤ 2)%nat) ∧
    (∃ d', scorecard_state s' = PDict d')).
  { intros s' Hm Hs. split; [|by eexists]. exists []. rewrite app_nil_r.
    split; [done|cbn; lia]. }
  destruct (back_clicked i) eqn:Hb.
  { rewrite chat_page_back by done. by apply Hsame. }
  destruct (is_loading (session x)) eqn:Hload.
  2: { destruct (send_clicked i && nonempty (user_input i)) eqn:Hs.
       - rewrite chat_page_send by done. by apply Hsame.
       - rewrite chat_page_idle by done. by apply Hsame. }
  rewrite chat_page_loading by done.
  destruct (pending_message (session x)) as [m|]; [|by apply Hsame].
  destruct (process_pending_store net m l d x Hl Hd) as [(rest & Hrest & Hlen) Hdict].
  split; [|done]. exists (user_message_dict m :: rest).
  split; [done|cbn; lia].
Qed.

(** X18. The log of a chat only grows: over any runs of the chat page, the
    messages that were in the log stay where they are, and each run adds at
    most two (the user's and one of the assistant). *)
Theorem log_only_grows_in_the_chat
    (steps : list ((option string → envelope → ws_script) * chat_inputs))
    (l : list pyval) (d : gmap string pyval) (x : world) :
  messages (session x) = PList l →
  scorecard_state (session x) = PDict d →
  ∃ rest, messages (session (chat_runs steps x)) = PList (l ++ rest) ∧
          (List.length rest ≤ 2 * List.length steps)%nat.
Proof.
  revert l d x. induction steps as [|[net i] steps IH]; intros l d x Hl Hd.
  - exists []. cbn. rewrite app_nil_r. split; [done|lia].
  - cbn [chat_runs foldl fst snd].
    destruct (chat_page_store net i l d x Hl Hd) as [(rest1 & Hm1 & Hlen1) [d1 Hd1]].
    destruct (IH _ _ _ Hm1 Hd1) as (rest2 & Hm2 & Hlen2).
    fold (chat_runs steps (snd (chat_page net i x))).
    exists (rest1 ++ rest2). rewrite Hm2, <- app_assoc. split; [done|].
    rewrite length_app. cbn [List.length]. lia.
Qed.

Lemma log_only_grows_in_the_chat_witness :
  let steps := [ (answering [RecvFrame (Some (PDict sample_reply))],
                  on_chat (send "and another thing"));
                 (answering [RecvFrame (Some (PDict sample_reply))], on_chat quiet) ] in
  ∃ rest, messages (session (chat_runs steps sample_world)) = PList (sample_log ++ rest) ∧
          (List.length rest ≤ 2 * List.length steps)%nat.
Proof.
  apply (log_only_grows_in_the_chat
           [ (answering [RecvFrame (Some (PDict sample_reply))],
              on_chat (send "and another thing"));
             (answering [RecvFrame (Some (PDict sample_reply))], on_chat quiet) ]
           sample_log {[ "situation" := PDict {[ "team_size" := PStr "3" ]} ]}
           sample_world); reflexivity.
Defined.

Lemma main_well_typed http net w x :
  typed_history http →
  well_typed (session x) →
  well_typed (session (snd (main http net w x))).
Proof.
  intros Hhttp Hx. destruct (current_page (session x)) eqn:Hp.
  - rewrite main_modal by done.
    destruct (modal_page_frame http (on_modal w) x) as (o & s' & E & Hs').
    rewrite E. cbn [snd session].
    destruct Hs' as [Hs'|[[Hm Hs]|(tid & h & st & body & Hb & Hm & Hs)]].
    + done.
    + by apply (well_typed_same (session x)).
    + destruct (Hhttp _ _ _ _ Hb) as [[l Hl] [d Hd]].
      split; eexists; [by rewrite Hm|by rewrite Hs].
  - rewrite main_chat by done. destruct Hx as [[l Hl] [d Hd]].
    destruct (chat_page_store net (on_chat w) l d x Hl Hd) as [(rest & Hm & _) Hdict].
    split; [by eexists|done].
Qed.

(** X19. From a store whose log is a list and whose draft is a dict, no user
    action leads to a store of another kind, whatever the network answers,
    as long as the histories the endpoint returns hold a list and a dict
    where they hold [messages] and [state]. *)
Theorem store_stays_well_typed (actions : list action) (x : world) :
  Forall (λ a, typed_history (act_http a)) actions →
  well_typed (session x) →
  well_typed (session (perform_all actions x)).
Proof.
  intros Hall. revert x. induction Hall as [|a actions Ha _ IH]; intros x Hx; [done|].
  cbn [perform_all foldl]. apply IH. unfold perform. cbn [interact].
  pose proof (main_well_typed (act_http a) (act_net a) (act_widgets a) x Ha Hx) as H1.
  destruct (main (act_http a) (act_net a) (act_widgets a) x) as [[[]| |e] x1];
    cbn [snd] in *; try done.
  pose proof (main_well_typed (act_http a) (act_net a) quiet x1 Ha H1) as H2.
  destruct (main (act_http a) (act_net a) quiet x1) as [[[]| |e] x2];
    cbn [snd] in *; try done.
  pose proof (main_well_typed (act_http a) (act_net a) quiet x2 Ha H2) as H3.
  by destruct (main (act_http a) (act_net a) quiet x2) as [[[]| |e] x3].
Qed.

Lemma store_stays_well_typed_witness :
  well_typed
    (session
       (perform_all
          [ {| act_http := no_history; act_net := answering [];
               act_widgets := submit "Senior Engineer" "" "" |};
            {| act_http := no_history;
               act_net := answering [RecvFrame (Some (PList [PInt 1]))];
               act_widgets := send "I lead a team of 5" |};
            {| act_http := no_history; act_net := answering []; act_widgets := back |} ]
          fresh_world)).
Proof.
  apply (store_stays_well_typed
           [ {| act_http := no_history; act_net := answering [];
                act_widgets := submit "Senior Engineer" "" "" |};
             {| act_http := no_history;
                act_net := answering [RecvFrame (Some (PList [PInt 1]))];
                act_widgets := send "I lead a team of 5" |};
             {| act_http := no_history; act_net := answering []; act_widgets := back |} ]
           fresh_world).
  - repeat (constructor; [intros ? ? ? ? H; discriminate H|]). constructor.
  - split; by eexists.
Defined.

(** ** A pending message that outlives its session *)


